(** * snmpsim_tools: the two conversion scripts, embedded and verified

  - [qa_device_simulator_to_snmpsim.py]: QA Device Simulator XML to snmprec
    (entity repair, definition parsing, type mapping, record emission);
  - [snmpwalk_to_snmpsim.py]: the line normaliser of Net-SNMP walks.

  Conventions of the embedding.
  - A Python [str] is a [string]; a character is an [ascii], read as the
    code point 0..255 (the Latin-1 range of Python's [str]).
  - A Python [dict] is a [gmap]; a missing key ([KeyError]) is [None].
  - [print] appends to a list of lines; a call that catches its own
    exceptions returns [None] the way the Python function falls off its
    end. *)

From Stdlib Require Import ZArith List String Ascii Bool Lia DecimalString.
From stdpp Require Import base option gmap strings.
Import ListNotations.

Local Open Scope string_scope.
Local Open Scope list_scope.
Local Open Scope Z_scope.

(** ** Python values shared by both scripts *)

Module Py.

(** What a call gives back: a value, or the exception it raised. *)
Inductive exception :=
| KeyError (key : string)
| ValueError (arg : string)
| OverflowError
| Exception (msg : string).

Inductive result (A : Type) :=
| Return (a : A)
| Raise (e : exception).
Arguments Return {A} a.
Arguments Raise {A} e.

Definition bind {A B : Type} (r : result A) (k : A -> result B) : result B :=
  match r with
  | Return a => k a
  | Raise e => Raise e
  end.

(** [str(exception)]: a [KeyError] shows the repr of its key. *)
Definition str_of_exception (e : exception) : string :=
  match e with
  | KeyError key => "'" +:+ key +:+ "'"
  | ValueError arg => "could not convert string to float: '" +:+ arg +:+ "'"
  | OverflowError => "cannot convert float infinity to integer"
  | Exception msg => msg
  end.

(** [d[key]] *)
Definition subscript (d : gmap string string) (key : string) : result string :=
  match d !! key with
  | Some v => Return v
  | None => Raise (KeyError key)
  end.

(** Character classes of [re], on code points below 256: there [\d] is
    the ten ASCII digits. *)
Definition code (c : ascii) : N := N_of_ascii c.

Definition is_digit (c : ascii) : bool :=
  ((48 <=? code c) && (code c <=? 57))%N.

Definition is_letter (c : ascii) : bool :=
  (((65 <=? code c) && (code c <=? 90)) || ((97 <=? code c) && (code c <=? 122)))%N.

(** One character of the class [p], and the text after it. *)
Definition one (p : ascii -> bool) (s : string) : option (ascii * string) :=
  match s with
  | String c r => if p c then Some (c, r) else None
  | EmptyString => None
  end.

(** The text after the literal [p], when [s] starts with it. *)
Fixpoint after_literal (p s : string) : option string :=
  match p, s with
  | EmptyString, _ => Some s
  | String a p', String b s' => if Ascii.eqb a b then after_literal p' s' else None
  | String _ _, EmptyString => None
  end.

(** [s.find(sub) != -1] *)
Fixpoint contains (sub s : string) : bool :=
  String.prefix sub s ||
  match s with
  | String _ r => contains sub r
  | EmptyString => false
  end.

(** [re.sub] of a one-character class by the empty string: the characters
    outside the class [p] are kept. *)
Fixpoint remove (p : ascii -> bool) (s : string) : string :=
  match s with
  | EmptyString => EmptyString
  | String c r => if p c then remove p r else String c (remove p r)
  end.

(** [s.isprintable()], on code points below 256: the ASCII range from the
    space to the tilde, and the Latin-1 range above the no-break space
    without the soft hyphen. *)
Definition is_printable (c : ascii) : bool :=
  (((32 <=? code c) && (code c <=? 126))
   || ((161 <=? code c) && negb (code c =? 173)))%N.

Fixpoint isprintable (s : string) : bool :=
  match s with
  | EmptyString => true
  | String c r => is_printable c && isprintable r
  end.

(** [s.partition(sep)], for a separator that is not empty: the text
    before the first [sep], [sep], and the text after it; [s] and two
    empty strings when [sep] does not occur. *)
Fixpoint partition (sep s : string) : string * string * string :=
  match after_literal sep s with
  | Some after => (EmptyString, sep, after)
  | None =>
      match s with
      | EmptyString => (EmptyString, EmptyString, EmptyString)
      | String c r => let '(before, found, after) := partition sep r in
                      (String c before, found, after)
      end
  end.

(** The lines a text file yields when read: each text and its newline. *)
Definition newline : string := String "010" EmptyString.

Definition text_lines (texts : list string) : list string :=
  map (λ text, text +:+ newline) texts.

(** An optional argument: [None] or a [str]. *)
Inductive value :=
| PyNone
| PyStr (s : string).

(** [str(n)] for an [int]. *)
Definition str_of_int (n : Z) : string :=
  NilZero.string_of_int (Z.to_int n).

End Py.

#[export] Instance result_bind : MBind Py.result := λ A B k r, Py.bind r k.

(** ** qa_device_simulator_to_snmpsim.py *)

Module QA.

(** *** [class OidType(Enum)]

    [IpAddress = 64] comes after [IPAddress = 64], so it is an alias of the
    member [IPAddress]; the line [ObjectIdentifier = 6] is commented out in
    the source and declares nothing. *)
Inductive OidType :=
| Integer32 | OctetString | Null | ObjectId | IPAddress
| Counter32 | Gauge32 | TimeTicks | Opaque | Counter64.

Definition value (t : OidType) : Z :=
  match t with
  | Integer32 => 2
  | OctetString => 4
  | Null => 5
  | ObjectId => 6
  | IPAddress => 64
  | Counter32 => 65
  | Gauge32 => 66
  | TimeTicks => 67
  | Opaque => 68
  | Counter64 => 70
  end.

(** The names the class body binds, aliases included, in source order. *)
Definition member_names : list (string * OidType) :=
  [ ("Integer32", Integer32); ("OctetString", OctetString); ("Null", Null);
    ("ObjectId", ObjectId); ("IPAddress", IPAddress); ("IpAddress", IPAddress);
    ("Counter32", Counter32); ("Gauge32", Gauge32); ("TimeTicks", TimeTicks);
    ("Opaque", Opaque); ("Counter64", Counter64) ].

(** [OidType._member_map_] *)
Definition member_map : gmap string OidType := list_to_map member_names.

(** [enumType[name]]: [None] stands for the [KeyError]. *)
Definition getitem (name : string) : option OidType := member_map !! name.

(** [enumContainsName(OidType, name)] *)
Definition enumContainsName (name : string) : bool :=
  match getitem name with
  | Some _ => true
  | None => false
  end.

(** The code a type name resolves to: [OidType[name].value]. *)
Definition type_code (name : string) : option Z := value <$> getitem name.

(** *** [class SnmpsimRecord] *)
Record SnmpsimRecord := mkSnmpsimRecord {
  rec_oid : string;
  rec_oidType : Z;
  rec_value : string
}.

(** *** [class QADeviceSimulatorDefinition]

    [logOutput] and [comment] are stored as passed; [delay], [save] and
    [skipOid] go through the [isinstance(_, str)] test. *)
Record QADeviceSimulatorDefinition := mkDefinition {
  oid : string;
  type : string;
  returnValue : string;
  logOutput : Py.value;
  comment : Py.value;
  delay : string;
  save : string;
  skipOid : string
}.

(** [v] when [isinstance(v, str)], the sentinel otherwise *)
Definition or_NA (v : Py.value) : string :=
  match v with
  | Py.PyStr s => s
  | Py.PyNone => "NA"
  end.

(** [QADeviceSimulatorDefinition.__init__] *)
Definition init (oid type returnValue : string)
    (logOutput comment delay save skipOid : Py.value)
    : QADeviceSimulatorDefinition :=
  {| oid := oid;
     type := type;
     returnValue := returnValue;
     logOutput := logOutput;
     comment := comment;
     delay := or_NA delay;
     save := or_NA save;
     skipOid := or_NA skipOid |}.

(** *** The element tree handed over by [xml.etree.ElementTree] *)
Unset Elimination Schemes.
Inductive Element :=
| mkElement (tag : string) (attrib : gmap string string)
            (children : list Element).
Set Elimination Schemes.

Definition tag (e : Element) : string :=
  let 'mkElement t _ _ := e in t.
Definition attrib (e : Element) : gmap string string :=
  let 'mkElement _ a _ := e in a.
Definition children (e : Element) : list Element :=
  let 'mkElement _ _ c := e in c.

(** The attributes of an [Element] object itself (its XML attributes live
    in [attrib]); the double-underscore names of every object are left
    out, none is ever asked for. *)
Definition Element_attributes : list string :=
  [ "tag"; "attrib"; "text"; "tail"; "append"; "clear"; "extend"; "find";
    "findall"; "findtext"; "get"; "insert"; "items"; "iter"; "iterfind";
    "itertext"; "keys"; "makeelement"; "remove"; "set" ].

(** [hasattr(element, name)] *)
Definition hasattr (e : Element) (name : string) : bool :=
  existsb (String.eqb name) Element_attributes.

Definition children_tagged (t : string) (e : Element) : list Element :=
  List.filter (fun c => String.eqb (tag c) t) (children e).

(** [rootElement.findall('.Definitions/Definition')] *)
Definition findall_Definitions_Definition (rootElement : Element) : list Element :=
  flat_map (children_tagged "Definition") (children_tagged "Definitions" rootElement).

(** [rootElement.findall('.Definition')] *)
Definition findall_Definition (rootElement : Element) : list Element :=
  children_tagged "Definition" rootElement.

(** [simulationRecord.attrib[name] if hasattr(simulationRecord, name) else None] *)
Definition attrib_if_hasattr (simulationRecord : Element) (name : string)
    : Py.result Py.value :=
  if hasattr simulationRecord name
  then v ← Py.subscript (attrib simulationRecord) name; Py.Return (Py.PyStr v)
  else Py.Return Py.PyNone.

(** The constructor call of the parsing loop, arguments evaluated in order. *)
Definition definition_of_element (simulationRecord : Element)
    : Py.result QADeviceSimulatorDefinition :=
  oid ← Py.subscript (attrib simulationRecord) "OID";
  type ← Py.subscript (attrib simulationRecord) "Type";
  returnValue ← Py.subscript (attrib simulationRecord) "ReturnValue";
  logOutput ← attrib_if_hasattr simulationRecord "LogOutput";
  comment ← attrib_if_hasattr simulationRecord "Comment";
  delay ← attrib_if_hasattr simulationRecord "Delay";
  save ← attrib_if_hasattr simulationRecord "Save";
  skipOid ← attrib_if_hasattr simulationRecord "SkipOID";
  Py.Return (init oid type returnValue logOutput comment delay save skipOid).

Fixpoint parse_loop (listDefinitions : list Element)
    (qaDeviceSimulatorDefinitions : list QADeviceSimulatorDefinition)
    : Py.result (list QADeviceSimulatorDefinition) :=
  match listDefinitions with
  | [] => Py.Return qaDeviceSimulatorDefinitions
  | simulationRecord :: rest =>
      d ← definition_of_element simulationRecord;
      parse_loop rest (qaDeviceSimulatorDefinitions ++ [d])
  end.

(** The elements the loop runs over: the nested structure, the old flat
    one when the nested path matches nothing. *)
Definition listDefinitions (rootElement : Element) : list Element :=
  if (length (findall_Definitions_Definition rootElement) =? 0)%nat
  then findall_Definition rootElement
  else findall_Definitions_Definition rootElement.

Definition count_message (n : nat) : string :=
  "[INFO]|ParseQADeviceSimulatorFile|Number of OID definitions: "
    +:+ Py.str_of_int (Z.of_nat n).

(** [ParseQADeviceSimulatorFile], from the root element on: the list it
    returns ([None] after a caught exception) and what it prints. *)
Definition ParseQADeviceSimulatorFile (rootElement : Element)
    : option (list QADeviceSimulatorDefinition) * list string :=
  let nested := findall_Definitions_Definition rootElement in
  let flat := findall_Definition rootElement in
  let old_structure :=
    "[INFO]|ParseQADeviceSimulatorFile|OID definitions not found, we will try to get the definition from an old structure" in
  let run (listDefinitions : list Element) (printed : list string) :=
    match parse_loop listDefinitions [] with
    | Py.Return l => (Some l, printed)
    | Py.Raise e =>
        (None, printed ++ ["[ERROR]|ParseQADeviceSimulatorFile|Exception:"
                             +:+ Py.str_of_exception e])
    end in
  if (length nested =? 0)%nat then
    if (length flat =? 0)%nat then
      (Some [], [old_structure; "[INFO]|ParseQADeviceSimulatorFile|No OID definitions found"])
    else run flat [old_structure; count_message (length flat)]
  else run nested [count_message (length nested)].

(** *** [ConvertSimulationFile] *)
Definition not_found_message (simulationRecord : QADeviceSimulatorDefinition) : string :=
  "[ERROR]|ConvertSimulationFile|OID type not found for simulation record:OID:"
    +:+ oid simulationRecord +:+ ",OID Type:" +:+ type simulationRecord.

Fixpoint convert_loop (listQADeviceSimulatorDefinition : list QADeviceSimulatorDefinition)
    (snmpsimRecords : list SnmpsimRecord) : Py.result (list SnmpsimRecord) :=
  match listQADeviceSimulatorDefinition with
  | [] => Py.Return snmpsimRecords
  | simulationRecord :: rest =>
      if enumContainsName (type simulationRecord) then
        match getitem (type simulationRecord) with
        | Some member =>
            let snmpsimRecord :=
              {| rec_oid := oid simulationRecord;
                 rec_oidType := value member;
                 rec_value := returnValue simulationRecord |} in
            convert_loop rest (snmpsimRecords ++ [snmpsimRecord])
        | None => Py.Raise (Py.KeyError (type simulationRecord))
        end
      else Py.Raise (Py.Exception (not_found_message simulationRecord))
  end.

(** The list returned ([None] after the caught exception) and the lines
    printed. *)
Definition ConvertSimulationFile
    (listQADeviceSimulatorDefinition : list QADeviceSimulatorDefinition)
    : option (list SnmpsimRecord) * list string :=
  match convert_loop listQADeviceSimulatorDefinition [] with
  | Py.Return snmpsimRecords => (Some snmpsimRecords, [])
  | Py.Raise e =>
      (None, ["[ERROR]|ConvertSimulationFile|Exception:" +:+ Py.str_of_exception e])
  end.

(** *** [GenerateSnmprecFile]

    A row is the list handed to [writer.writerow]: oid, type code, value.
    The result is the rows of the file written at [outputPath] ([None]
    when the file is not opened) and the lines printed. *)
Definition row : Type := string * Z * string.

Definition row_of_record (snmpsimRecord : SnmpsimRecord) : row :=
  (rec_oid snmpsimRecord, rec_oidType snmpsimRecord, rec_value snmpsimRecord).

(** [not listSnmpsimRecords], for the list or the [None] the mapper returned. *)
Definition is_falsy (listSnmpsimRecords : option (list SnmpsimRecord)) : bool :=
  match listSnmpsimRecords with
  | None | Some [] => true
  | Some (_ :: _) => false
  end.

Definition GenerateSnmprecFile (listSnmpsimRecords : option (list SnmpsimRecord))
    (outputPath : string) : option (list row) * list string :=
  if String.eqb outputPath "" then
    (None, ["[ERROR]|GenerateSnmprecFile|Exception:Output file path is an empty string"])
  else if is_falsy listSnmpsimRecords then
    (None, ["[ERROR]|GenerateSnmprecFile|Exception:List passed as argument is empty"])
  else
    (Some (map row_of_record (default [] listSnmpsimRecords)),
     ["[INFO]|GenerateSnmprecFile|File " +:+ outputPath +:+ " generated successfully"]).

(** The rows found in the output after the call: none when nothing was
    written. *)
Definition rows_written (r : option (list row) * list string) : list row :=
  default [] (fst r).

(** *** [ValidateAndReplaceXmlFile]: the repair of one line

    Both patterns start with the literal [&#x] and end with [;]; the
    alternatives are tried in the order they are written, [\d{1,2}] with
    two digits first. The result is the captured group. *)
Definition semicolon (s : string) : bool :=
  match s with
  | String c _ => Ascii.eqb c ";"
  | EmptyString => false
  end.

(** [\d{1,2}] then [;] *)
Definition digits_1_2 (s : string) : option string :=
  '(a, r1) ← Py.one Py.is_digit s;
  match Py.one Py.is_digit r1 with
  | Some (b, r2) =>
      if semicolon r2 then Some (String a (String b ""))
      else if semicolon r1 then Some (String a "") else None
  | None => if semicolon r1 then Some (String a "") else None
  end.

(** [[a-zA-Z]] then [;] *)
Definition letter (s : string) : option string :=
  '(a, r1) ← Py.one Py.is_letter s;
  if semicolon r1 then Some (String a "") else None.

(** [1[a-zA-Z]] then [;] *)
Definition one_letter (s : string) : option string :=
  '(a, r1) ← Py.one (Ascii.eqb "1") s;
  '(b, r2) ← Py.one Py.is_letter r1;
  if semicolon r2 then Some (String a (String b "")) else None.

(** The texts the group can capture: one or two digits, a letter, or
    [1] and a letter. *)
Definition valid_group (g : string) : bool :=
  match g with
  | String a EmptyString => Py.is_digit a || Py.is_letter a
  | String a (String b EmptyString) =>
      (Py.is_digit a && Py.is_digit b) || (Ascii.eqb "1" a && Py.is_letter b)
  | _ => false
  end.

(** A match of [&#x(\d{1,2});|&#x([a-zA-Z]|1[a-zA-Z]);] at the start of [s]. *)
Definition search_here (s : string) : option string :=
  (r ← Py.after_literal "&#x" s; digits_1_2 r)
  ∪ (r ← Py.after_literal "&#x" s; letter r ∪ one_letter r).

(** A match of [&#x(\d{1,2}|[a-zA-Z]|1[a-zA-Z]);] at the start of [s]. *)
Definition sub_here (s : string) : option string :=
  r ← Py.after_literal "&#x" s;
  digits_1_2 r ∪ letter r ∪ one_letter r.

(** [re.search(..., line)]: a match at some position. *)
Fixpoint malformedEncodingFound (line : string) : bool :=
  match search_here line with
  | Some _ => true
  | None =>
      match line with
      | String _ r => malformedEncodingFound r
      | EmptyString => false
      end
  end.

(** [re.sub(..., r"0\1.", line)], scanning from the left: a match is
    replaced by [0], the group and a dot, and its [skip] remaining
    characters are passed over; any other character is copied. *)
Fixpoint sub_from (skip : nat) (line : string) : string :=
  match line with
  | EmptyString => EmptyString
  | String c r =>
      match skip with
      | S k => sub_from k r
      | O =>
          match sub_here line with
          | Some group =>
              "0" +:+ group +:+ "." +:+ sub_from (3 + String.length group) r
          | None => String c (sub_from 0 r)
          end
      end
  end.

Definition lineReplaced (line : string) : string := sub_from 0 line.

(** The line appended to [updatedLines] for [line]. *)
Definition updatedLine (line : string) : string :=
  if malformedEncodingFound line then lineReplaced line else line.

Definition updatedLines (fileLines : list string) : list string :=
  map updatedLine fileLines.

(** The record a definition is mapped to. *)
Definition maps_to (d : QADeviceSimulatorDefinition) (r : SnmpsimRecord) : Prop :=
  rec_oid r = oid d
  ∧ type_code (type d) = Some (rec_oidType r)
  ∧ rec_value r = returnValue d.

End QA.

(** ** Python's [float]: IEEE 754 binary64, round to nearest, ties to even *)

Module Float.

(** A finite value is [m * 2^e], negated when [negative]; [m] has at most
    53 bits and [e] is at least -1074. *)
Inductive float :=
| Finite (negative : bool) (m : Z) (e : Z)
| Infinity (negative : bool)
| NaN.

(** The binary64 nearest to [n / d], for [0 <= n] and [0 < d]. *)
Definition nearest (negative : bool) (n d : Z) : float :=
  if n =? 0 then Finite negative 0 0
  else
    let e0 := Z.log2 n - Z.log2 d - 53 in
    let scaled (e : Z) := (n * 2 ^ Z.max 0 (- e)) / (d * 2 ^ Z.max 0 e) in
    let e1 := if 2 ^ 53 <=? scaled e0 then e0 + 1 else e0 in
    let e := Z.max e1 (-1074) in
    let num := n * 2 ^ Z.max 0 (- e) in
    let den := d * 2 ^ Z.max 0 e in
    let q := num / den in
    let r := num mod den in
    let m :=
      if 2 * r <? den then q
      else if den <? 2 * r then q + 1
      else if Z.even q then q else q + 1 in
    if (971 <? e) || ((e =? 971) && (m =? 2 ^ 53))
    then Infinity negative
    else Finite negative m e.

(** [float(k)] for an [int] *)
Definition of_int (k : Z) : float := nearest (k <? 0) (Z.abs k) 1.

(** [x * y] *)
Definition mul (x y : float) : float :=
  match x, y with
  | NaN, _ | _, NaN => NaN
  | Infinity s, Infinity t => Infinity (xorb s t)
  | Infinity s, Finite t m _ | Finite t m _, Infinity s =>
      if m =? 0 then NaN else Infinity (xorb s t)
  | Finite s m1 e1, Finite t m2 e2 =>
      let e := e1 + e2 in
      nearest (xorb s t) (m1 * m2 * 2 ^ Z.max 0 e) (2 ^ Z.max 0 (- e))
  end.

(** [int(x)]: truncation towards zero. *)
Definition to_int (x : float) : Py.result Z :=
  match x with
  | Finite s m e =>
      let magnitude := if 0 <=? e then m * 2 ^ e else m / 2 ^ (- e) in
      Py.Return (if s then - magnitude else magnitude)
  | Infinity _ => Py.Raise Py.OverflowError
  | NaN => Py.Raise (Py.ValueError "nan")
  end.

(** The digits of a decimal numeral, most significant first. *)
Definition digit_value (c : ascii) : Z := Z.of_N (Py.code c) - 48.

Fixpoint digits_value (acc : Z) (s : string) : Z :=
  match s with
  | EmptyString => acc
  | String c r => digits_value (10 * acc + digit_value c) r
  end.

Fixpoint all_digits (s : string) : bool :=
  match s with
  | EmptyString => true
  | String c r => Py.is_digit c && all_digits r
  end.

(** The part of [s] before the first dot, and the part after it ([None]
    when there is no dot). *)
Fixpoint split_dot (s : string) : string * option string :=
  match s with
  | EmptyString => (EmptyString, None)
  | String c r =>
      if Ascii.eqb c "." then (EmptyString, Some r)
      else let '(a, b) := split_dot r in (String c a, b)
  end.

(** [float(s)] for a text without blanks, letters or underscores: an
    optional sign, then digits with at most one dot and at least one
    digit; anything else is a [ValueError]. The value is the nearest
    binary64. *)
Definition of_str (s : string) : Py.result float :=
  let '(negative, body) :=
    match s with
    | String "-" r => (true, r)
    | String "+" r => (false, r)
    | _ => (false, s)
    end in
  let '(whole, after) := split_dot body in
  let fraction := default EmptyString after in
  if all_digits whole && all_digits fraction
     && negb (String.eqb (whole +:+ fraction) "")
  then Py.Return (nearest negative (digits_value 0 (whole +:+ fraction))
                    (10 ^ Z.of_nat (String.length fraction)))
  else Py.Raise (Py.ValueError s).

End Float.

(** ** snmpwalk_to_snmpsim.py: the loop of [main] over the lines read *)

Module Walk.

(** The variables of [main] that live across iterations, the lines
    written to [outTextFile] (each write is one line and its newline) and
    the lines printed. *)
Record state := mkState {
  previousLine : string;
  outTextFile : list string;
  lineCount : Z;
  printed : list string
}.

(** The class of [re.sub(r"[\n\t\f\v]*", "", line)] *)
Definition is_stripped (c : ascii) : bool :=
  ((Py.code c =? 10) || (Py.code c =? 9) || (Py.code c =? 12) || (Py.code c =? 11))%N.

(** The class negated in [re.sub('[^-?\d+\.]', "", ...)]: inside the
    brackets the minus, the question mark, the plus and the dot stand for
    themselves. *)
Definition is_kept (c : ascii) : bool :=
  Ascii.eqb c "-" || Ascii.eqb c "?" || Py.is_digit c
  || Ascii.eqb c "+" || Ascii.eqb c ".".

Definition starts_with_oid (lineUpdated : string) : bool :=
  String.prefix ".1.3.6." lineUpdated || String.prefix "1.3.6." lineUpdated.

Definition has_unit (lineUpdated : string) : bool :=
  Py.contains "TenthdBmV" lineUpdated || Py.contains "TenthdB" lineUpdated.

Definition no_such_object : string :=
  "No Such Object available on this agent at this OID".

Definition line_tag (lineCount : Z) : string :=
  "[INFO]|Main|Line[" +:+ Py.str_of_int lineCount +:+ "]: ".

(** The value written after [INTEGER:] : [str(int(rawValue * 10))]. *)
Definition scaled_value (after : string) : Py.result string :=
  rawValue ← Float.of_str (Py.remove (λ c, negb (is_kept c)) after);
  scaled ← Float.to_int (Float.mul rawValue (Float.of_int 10));
  Py.Return (Py.str_of_int scaled).

(** [re.sub(r"[\n\t\f\v]*", "", line)] *)
Definition stripped (line : string) : string := Py.remove is_stripped line.

(** The words of the steps: the current line once a continuation is
    stitched, a line that reaches the last branch, a record that is
    complete on its line, and a line dropped without any change of
    [previousLine]. *)
Definition current (previousLine line : string) : string :=
  if starts_with_oid (stripped line) then stripped line
  else previousLine +:+ stripped line.

Definition reaches_last_branch (previousLine line : string) : bool :=
  Py.isprintable (stripped line)
  && negb (has_unit (current previousLine line))
  && negb (Py.contains no_such_object (current previousLine line)).

Definition normal_record (line : string) : bool :=
  Py.isprintable (stripped line)
  && starts_with_oid (stripped line)
  && negb (has_unit (stripped line))
  && negb (Py.contains no_such_object (stripped line)).

Definition dropped_line (line : string) : bool :=
  negb (Py.isprintable (stripped line))
  || (starts_with_oid (stripped line)
      && negb (has_unit (stripped line))
      && Py.contains no_such_object (stripped line)).

(** One iteration of [for line in inTextFile]. *)
Definition body (st : state) (line : string) : Py.result state :=
  let lineCount := lineCount st + 1 in
  let lineUpdated := stripped line in
  if negb (Py.isprintable lineUpdated) then
    Py.Return
      {| previousLine := previousLine st;
         outTextFile := outTextFile st;
         lineCount := lineCount;
         printed := printed st
           ++ [line_tag lineCount +:+ "This line contains an invalid character"] |}
  else
    let invalid := negb (starts_with_oid lineUpdated) in
    let printed :=
      if invalid
      then printed st
             ++ [line_tag lineCount +:+ "Not valid SNMP walk record:" +:+ lineUpdated]
      else printed st in
    let lineUpdated :=
      if invalid then previousLine st +:+ lineUpdated else lineUpdated in
    let previousLine := if invalid then lineUpdated else previousLine st in
    if has_unit lineUpdated then
      let '(before, found, after) := Py.partition "INTEGER:" lineUpdated in
      value ← scaled_value after;
      let lineUpdated := before +:+ found +:+ " " +:+ value in
      Py.Return
        {| previousLine := lineUpdated;
           outTextFile := outTextFile st ++ [lineUpdated];
           lineCount := lineCount;
           printed := printed |}
    else if Py.contains no_such_object lineUpdated then
      Py.Return
        {| previousLine := previousLine;
           outTextFile := outTextFile st;
           lineCount := lineCount;
           printed := printed
             ++ [line_tag lineCount +:+ "Invalid SNMP record: " +:+ no_such_object] |}
    else
      Py.Return
        {| previousLine := lineUpdated;
           outTextFile := outTextFile st ++ [previousLine];
           lineCount := lineCount;
           printed := printed |}.

(** The loop: the state when the input is exhausted, or the state reached
    before the iteration that raised, with the exception. *)
Fixpoint loop (lines : list string) (st : state) : state * option Py.exception :=
  match lines with
  | [] => (st, None)
  | line :: rest =>
      match body st line with
      | Py.Return st' => loop rest st'
      | Py.Raise e => (st, Some e)
      end
  end.

Definition initial : state :=
  {| previousLine := ""; outTextFile := []; lineCount := 0; printed := [] |}.

(** [main], from the lines of the re-encoded file on. *)
Definition main (lines : list string) : state * option Py.exception :=
  loop lines initial.

(** The text of the output file. *)
Definition file_text (st : state) : string :=
  String.concat "" (map (λ l, l +:+ Py.newline) (outTextFile st)).

End Walk.

(** ** The unit rewriting in the words of the specification

  The value written after [INTEGER:] when the removal is the one the
  specification words: every character that is not a digit, a minus
  sign or a decimal point goes. *)

Module Spec.

Definition is_numeric (c : ascii) : bool :=
Py.is_digit c || Ascii.eqb c "-" || Ascii.eqb c ".".

Definition scaled_value (after : string) : Py.result string :=
rawValue ← Float.of_str (Py.remove (λ c, negb (is_numeric c)) after);
scaled ← Float.to_int (Float.mul rawValue (Float.of_int 10));
Py.Return (Py.str_of_int scaled).

End Spec.

(** ** Inputs used as examples *)

Module Examples.

Import QA.

Definition three_definitions : list QADeviceSimulatorDefinition :=
  [ init "1.3.6.1.2.1.1.1.0" "OctetString" "router" Py.PyNone Py.PyNone
      Py.PyNone Py.PyNone Py.PyNone;
    init "1.3.6.1.2.1.1.2.0" "ObjectId" "1.3.6.1.4.1.9" Py.PyNone Py.PyNone
      Py.PyNone Py.PyNone Py.PyNone;
    init "1.3.6.1.2.1.4.20.1.1" "IpAddress" "10.0.0.1" Py.PyNone Py.PyNone
      Py.PyNone Py.PyNone Py.PyNone ].

Definition batch_with_bogus : list QADeviceSimulatorDefinition :=
  [ init "1.3.6.1.2.1.1.1.0" "OctetString" "router" Py.PyNone Py.PyNone
      Py.PyNone Py.PyNone Py.PyNone;
    init "1.3.6.1.2.1.1.3.0" "Bogus" "42" Py.PyNone Py.PyNone
      Py.PyNone Py.PyNone Py.PyNone;
    init "1.3.6.1.2.1.1.5.0" "OctetString" "name" Py.PyNone Py.PyNone
      Py.PyNone Py.PyNone Py.PyNone ].

Definition old_structure_file : Element :=
  mkElement "Simulation" ∅
    [ mkElement "Definition"
        (list_to_map [("OID", "1.3.6.1.2.1.1.1.0"); ("Type", "OctetString");
                      ("ReturnValue", "router")]) [];
      mkElement "Definition"
        (list_to_map [("OID", "1.3.6.1.2.1.1.3.0"); ("Type", "TimeTicks");
                      ("ReturnValue", "100"); ("Comment", "uptime")]) [] ].

End Examples.

(** ** qa_device_simulator_to_snmpsim.py: [main] and the files it touches

  The run is given what [open] finds at the input path ([None] when
  [os.path.exists] is false, the lines of [readlines] otherwise) and
  answers with the files it writes, in order, the lines it prints and
  whether it ends by [SystemExit]. The XML parser and [os.path.splitext]
  are the library's: the section takes them as they are. *)

Module QAMain.

Import QA.

Inductive file :=
| Text (lines : list string)
| Rows (rows : list row).

Record outcome := mkOutcome {
  writes : list (string * file);
  printed : list string;
  system_exit : bool
}.

(** [not qaDeviceSimulatorDefinitions], for the list or the [None] the
  parser returned. *)
Definition no_definitions (l : option (list QADeviceSimulatorDefinition)) : bool :=
match l with
| None | Some [] => true
| Some (_ :: _) => false
end.

(** The matched element has the three attributes read without a test. *)
Definition has_required (e : Element) : bool :=
bool_decide (is_Some (attrib e !! "OID"))
&& bool_decide (is_Some (attrib e !! "Type"))
&& bool_decide (is_Some (attrib e !! "ReturnValue")).

(** [key] is the first of [OID], [Type] and [ReturnValue], in the order the
  constructor call reads them, that the element lacks. *)
Definition first_missing (e : Element) (key : string) : Prop :=
attrib e !! key = None
∧ (key = "OID"
   ∨ (key = "Type" ∧ is_Some (attrib e !! "OID"))
   ∨ (key = "ReturnValue" ∧ is_Some (attrib e !! "OID")
      ∧ is_Some (attrib e !! "Type"))).

(** The three attributes read without a test, copied into a definition. *)
Definition copied_from (e : Element) (d : QADeviceSimulatorDefinition) : Prop :=
attrib e !! "OID" = Some (oid d)
∧ attrib e !! "Type" = Some (type d)
∧ attrib e !! "ReturnValue" = Some (returnValue d).

Section Main.

(** [xml.etree.ElementTree.parse(path).getroot()], on the lines of the file *)
Variable xml_parse : list string → Py.result Element.

(** [os.path.splitext(path)[0]] *)
Variable splitext_root : string → string.

Definition updatedFileName (filePath : string) : string :=
splitext_root filePath +:+ "_updated.xml".

(** [ValidateAndReplaceXmlFile]: the name returned, the file written and
  the lines printed. *)
Definition ValidateAndReplaceXmlFile (filePath : string)
  (found : option (list string))
  : option string * list (string * file) * list string :=
match found with
| Some fileLines =>
    (Some (updatedFileName filePath),
     [(updatedFileName filePath, Text (updatedLines fileLines))], [])
| None =>
    (None, [],
     ["[ERROR]|ValidateXmlFile|XML file:" +:+ filePath +:+ " could not be found"])
end.

(** [ParseQADeviceSimulatorFile], from the lines of the file at its path. *)
Definition ParseQADeviceSimulatorFile_lines (lines : list string)
  : option (list QADeviceSimulatorDefinition) * list string :=
match xml_parse lines with
| Py.Return rootElement => ParseQADeviceSimulatorFile rootElement
| Py.Raise e =>
    (None, ["[ERROR]|ParseQADeviceSimulatorFile|Exception:" +:+ Py.str_of_exception e])
end.

(** The repaired copy of the input parses into a list of definitions that
  is not empty and has known type names only. *)
Definition convertible (fileLines : list string)
  (definitions : list QADeviceSimulatorDefinition) : Prop :=
∃ rootElement,
  xml_parse (updatedLines fileLines) = Py.Return rootElement
  ∧ (ParseQADeviceSimulatorFile rootElement).1 = Some definitions
  ∧ definitions ≠ []
  ∧ Forall (λ d, enumContainsName (type d) = true) definitions.

Definition main (inputPath outputPath : string) (found : option (list string))
  : outcome :=
match found with
| None =>
    {| writes := [];
       printed :=
         [ "[INFO]|Main|File could not be processed. Could you check if the file exists?";
           "[INFO]|Main|Closing the application" ];
       system_exit := false |}
| Some fileLines =>
    let '(updated, written, printed_repair) :=
      ValidateAndReplaceXmlFile inputPath found in
    let printed :=
      ["[INFO]|Main|File:" +:+ inputPath +:+ " exists"] ++ printed_repair
      ++ ["[INFO]|Main|Updated file created:" +:+ default "None" updated] in
    let '(qaDeviceSimulatorDefinitions, printed_parse) :=
      ParseQADeviceSimulatorFile_lines (updatedLines fileLines) in
    let printed := printed ++ printed_parse in
    if no_definitions qaDeviceSimulatorDefinitions then
      {| writes := written; printed := printed; system_exit := true |}
    else
      let '(snmpsimRecords, printed_convert) :=
        ConvertSimulationFile (default [] qaDeviceSimulatorDefinitions) in
      let printed := printed ++ printed_convert in
      if is_falsy snmpsimRecords then
        {| writes := written; printed := printed; system_exit := true |}
      else
        let '(rows, printed_emit) := GenerateSnmprecFile snmpsimRecords outputPath in
        {| writes :=
             written ++ match rows with
                        | Some rows => [(outputPath, Rows rows)]
                        | None => []
                        end;
           printed := printed ++ printed_emit;
           system_exit := false |}
end.

End Main.

End QAMain.

(** ** Further inputs used as examples *)

Module MoreExamples.

Import QA.

(** The second definition has no [Type]. *)
Definition file_with_missing_type : Element :=
mkElement "Simulation" ∅
  [ mkElement "Definitions" ∅
      [ mkElement "Definition"
          (list_to_map [("OID", "1.3.6.1.2.1.1.1.0"); ("Type", "OctetString");
                        ("ReturnValue", "router")]) [];
        mkElement "Definition"
          (list_to_map [("OID", "1.3.6.1.2.1.1.3.0"); ("ReturnValue", "100")]) [] ] ].

(** The children of a root that holds both structures. *)
Definition both_structures : list Element :=
[ mkElement "Definition"
    (list_to_map [("OID", "1.3.6.1.2.1.1.5.0"); ("Type", "OctetString");
                  ("ReturnValue", "flat")]) [];
  mkElement "Definitions" ∅
    [ mkElement "Definition"
        (list_to_map [("OID", "1.3.6.1.2.1.1.1.0"); ("Type", "OctetString");
                      ("ReturnValue", "nested")]) [] ] ].

(** A parser that answers with the old flat file, one that rejects its
  input, and the root that [os.path.splitext] finds for [sim.xml]. *)
Definition parser_of_old_structure (lines : list string) : Py.result Element :=
Py.Return Examples.old_structure_file.


Definition root_of_path (path : string) : string := "sim".

Definition old_structure_definitions : list QADeviceSimulatorDefinition :=
[ mkDefinition "1.3.6.1.2.1.1.1.0" "OctetString" "router"
    Py.PyNone Py.PyNone "NA" "NA" "NA";
  mkDefinition "1.3.6.1.2.1.1.3.0" "TimeTicks" "100"
    Py.PyNone Py.PyNone "NA" "NA" "NA" ].

End MoreExamples.

(** ** snmpwalk_to_snmpsim.py: [matchInvalidStartNewline] *)

Module WalkStart.

(** The class [[A-F9-f0-9]]: the ranges from [A] to [F], from [9] to [f]
  and from [0] to [9]. *)
Definition in_class (c : ascii) : bool :=
(((65 <=? Py.code c) && (Py.code c <=? 70))
 || ((57 <=? Py.code c) && (Py.code c <=? 102))
 || ((48 <=? Py.code c) && (Py.code c <=? 57)))%N.

(** Whether [re.search('^[A-F9-f0-9]{2}\s*', sLine)] finds a match: two
  characters of the class at the start, the blanks after them may be
  none. *)
Definition matchInvalidStartNewline (sLine : string) : bool :=
match sLine with
| String a (String b _) => in_class a && in_class b
| _ => false
end.

End WalkStart.

(** ** Words for the runs of the line normaliser *)

Module WalkWords.

Import Walk.

(** What a run leaves behind that the output depends on: the carried line,
  the lines written and the exception that stopped it. *)
Definition same_visible (r1 r2 : state * option Py.exception) : Prop :=
previousLine r1.1 = previousLine r2.1
∧ outTextFile r1.1 = outTextFile r2.1
∧ r1.2 = r2.2.

(** The input without the lines that are dropped with no trace. *)
Definition without_dropped (lines : list string) : list string :=
List.filter (λ line, negb (dropped_line line)) lines.

(** The text after the first [INTEGER:] of the current line, reduced to
  the characters the class keeps. *)
Definition kept_remainder (previousLine line : string) : string :=
Py.remove (λ c, negb (is_kept c))
  (Py.partition "INTEGER:" (current previousLine line)).2.

End WalkWords.

(** * Properties of qa_device_simulator_to_snmpsim.py *)

Section TypeLookup.

Import QA.

Lemma enumContainsName_is_Some name :
  enumContainsName name = true ↔ is_Some (getitem name).
Proof.
  unfold enumContainsName. destruct (getitem name); split; intros H; eauto.
  - discriminate.
  - by destruct H.
Qed.

Lemma enumContainsName_names name :
  enumContainsName name = true ↔ name ∈ member_names.*1.
Proof.
  rewrite enumContainsName_is_Some. unfold getitem, member_map.
  rewrite <- not_eq_None_Some.
  rewrite <- (not_elem_of_list_to_map (M := gmap string)).
  split; [apply dec_stable | tauto].
Qed.

(** C6, the claim as stated fails: [ObjectIdentifier] is not a name of
    the enumeration, so it does not resolve to code 6. *)
Lemma ObjectIdentifier_is_not_a_member :
  enumContainsName "ObjectIdentifier" = false
  ∧ type_code "ObjectIdentifier" ≠ Some 6.
Proof. split; [reflexivity | discriminate]. Qed.

(** C6, as amended: [IpAddress] and [IPAddress] both resolve to 64 and
    [ObjectId] resolves to 6; [ObjectIdentifier] does not resolve; the
    lookup succeeds for exactly the eleven names of the class body, and
    other spellings of the same letters fail. *)
Theorem OidType_lookup_is_by_exact_name :
  type_code "IpAddress" = Some 64
  ∧ type_code "IPAddress" = Some 64
  ∧ type_code "ObjectId" = Some 6
  ∧ type_code "ObjectIdentifier" = None
  ∧ (∀ name, enumContainsName name = true ↔
       name ∈ [ "Integer32"; "OctetString"; "Null"; "ObjectId"; "IPAddress";
                "IpAddress"; "Counter32"; "Gauge32"; "TimeTicks"; "Opaque";
                "Counter64" ])
  ∧ enumContainsName "ipaddress" = false
  ∧ enumContainsName "IPADDRESS" = false
  ∧ enumContainsName "objectid" = false.
Proof.
  repeat split; try reflexivity; apply enumContainsName_names.
Qed.

End TypeLookup.

Section MapAndEmit.

Import QA Examples.

Implicit Types (defs : list QADeviceSimulatorDefinition)
               (acc recs : list SnmpsimRecord).

Lemma convert_loop_valid defs : ∀ acc,
  Forall (λ d, enumContainsName (type d) = true) defs →
  ∃ recs, convert_loop defs acc = Py.Return (acc ++ recs)
          ∧ Forall2 maps_to defs recs.
Proof.
  induction defs as [|d defs IH]; intros acc Hvalid; simpl.
  - exists []. by rewrite app_nil_r.
  - inversion_clear Hvalid as [|? ? Hd Hrest].
    rewrite Hd. apply enumContainsName_is_Some in Hd as [member Hmember].
    rewrite Hmember.
    destruct (IH (acc ++ [mkSnmpsimRecord (oid d) (value member) (returnValue d)]) Hrest)
      as (recs & Hloop & Hrecs).
    eexists (_ :: recs). rewrite Hloop, <- app_assoc. split; [done|].
    constructor; [|done].
    unfold maps_to, type_code. by rewrite Hmember.
Qed.

Lemma convert_loop_invalid defs : ∀ acc,
  Exists (λ d, enumContainsName (type d) = false) defs →
  ∃ valid d rest,
    defs = valid ++ d :: rest
    ∧ Forall (λ d, enumContainsName (type d) = true) valid
    ∧ enumContainsName (type d) = false
    ∧ convert_loop defs acc = Py.Raise (Py.Exception (not_found_message d)).
Proof.
  induction defs as [|d defs IH]; intros acc Hbad; [by inversion Hbad|].
  simpl. destruct (enumContainsName (type d)) eqn:Hd.
  - inversion Hbad as [? ? Hd'|? ? Hrest]; subst; [congruence|].
    pose proof Hd as [member Hmember]%enumContainsName_is_Some.
    rewrite Hmember.
    destruct (IH (acc ++ [mkSnmpsimRecord (oid d) (value member) (returnValue d)]) Hrest)
      as (valid & d' & rest & -> & Hvalid & Hd' & Hloop).
    exists (d :: valid), d', rest. by repeat split; [constructor|..].
  - exists [], d, defs. by repeat split.
Qed.

(** C1: when every type name is a name of [OidType] (and the output path
    is not empty, the emitter's own precondition), mapping and then
    emitting writes one row per definition, in the order of the input,
    each row holding the definition's oid, the code its type name looks
    up to, and its return value unchanged. *)
Theorem map_then_emit_one_row_per_definition defs (outputPath : string) :
  Forall (λ d, enumContainsName (type d) = true) defs →
  outputPath ≠ "" →
  Forall2 (λ d (r : row),
             r.1.1 = oid d ∧ type_code (type d) = Some r.1.2 ∧ r.2 = returnValue d)
    defs
    (rows_written (GenerateSnmprecFile (ConvertSimulationFile defs).1 outputPath)).
Proof.
  intros Hvalid Hpath.
  destruct (convert_loop_valid defs [] Hvalid) as (recs & Hloop & Hrecs).
  unfold ConvertSimulationFile. rewrite Hloop. simpl.
  assert (Hrows : rows_written (GenerateSnmprecFile (Some recs) outputPath)
                  = map row_of_record recs).
  { unfold GenerateSnmprecFile.
    destruct (String.eqb_spec outputPath "") as [|_]; [done|].
    by destruct recs. }
  rewrite Hrows. clear Hloop Hrows.
  induction Hrecs as [|d r defs' recs' Hd _ IH]; simpl; constructor.
  - apply Hd.
  - inversion_clear Hvalid. by apply IH.
Qed.

Lemma map_then_emit_witness :
  Forall (λ d, enumContainsName (type d) = true) three_definitions
  ∧ "out.snmprec" ≠ ""
  ∧ Forall2 (λ d (r : row),
               r.1.1 = oid d ∧ type_code (type d) = Some r.1.2 ∧ r.2 = returnValue d)
      three_definitions
      (rows_written
         (GenerateSnmprecFile (ConvertSimulationFile three_definitions).1 "out.snmprec")).
Proof.
  assert (Hvalid : Forall (λ d, enumContainsName (type d) = true) three_definitions)
    by (repeat constructor).
  assert (Hpath : "out.snmprec" ≠ "") by discriminate.
  exact (conj Hvalid (conj Hpath
           (map_then_emit_one_row_per_definition _ _ Hvalid Hpath))).
Defined.

(** C5: a list with a type name that is not in [OidType] makes the mapper
    abort the batch: it returns no list, whatever was mapped before the
    offending entry, prints one error naming that entry's oid and type
    name, and the emitter then writes no row. *)
Theorem unknown_type_aborts_the_batch defs :
  Exists (λ d, enumContainsName (type d) = false) defs →
  ∃ valid d rest,
    defs = valid ++ d :: rest
    ∧ Forall (λ d, enumContainsName (type d) = true) valid
    ∧ enumContainsName (type d) = false
    ∧ ConvertSimulationFile defs =
        (None,
         [ "[ERROR]|ConvertSimulationFile|Exception:[ERROR]|ConvertSimulationFile|OID type not found for simulation record:OID:"
             +:+ oid d +:+ ",OID Type:" +:+ type d ])
    ∧ ∀ outputPath,
        rows_written (GenerateSnmprecFile (ConvertSimulationFile defs).1 outputPath) = [].
Proof.
  intros Hbad.
  destruct (convert_loop_invalid defs [] Hbad)
    as (valid & d & rest & Hsplit & Hvalid & Hd & Hloop).
  exists valid, d, rest. repeat split; try done.
  - unfold ConvertSimulationFile. by rewrite Hloop.
  - intros outputPath. unfold ConvertSimulationFile. rewrite Hloop. simpl.
    unfold GenerateSnmprecFile, rows_written.
    by destruct (String.eqb outputPath "").
Qed.

Lemma unknown_type_witness :
  Exists (λ d, enumContainsName (type d) = false) batch_with_bogus
  ∧ ∃ valid d rest,
      batch_with_bogus = valid ++ d :: rest
      ∧ Forall (λ d, enumContainsName (type d) = true) valid
      ∧ enumContainsName (type d) = false
      ∧ ConvertSimulationFile batch_with_bogus =
          (None,
           [ "[ERROR]|ConvertSimulationFile|Exception:[ERROR]|ConvertSimulationFile|OID type not found for simulation record:OID:"
               +:+ oid d +:+ ",OID Type:" +:+ type d ])
      ∧ ∀ outputPath,
          rows_written
            (GenerateSnmprecFile (ConvertSimulationFile batch_with_bogus).1 outputPath) = [].
Proof.
  assert (Hbad : Exists (λ d, enumContainsName (type d) = false) batch_with_bogus)
    by (apply Exists_cons_tl, Exists_cons_hd; reflexivity).
  exact (conj Hbad (unknown_type_aborts_the_batch _ Hbad)).
Defined.

End MapAndEmit.

Section DefinitionParser.

Import QA Examples.

(** None of the five optional names is an attribute of the [Element]
    object, so the conditional always takes its [None] branch. *)
Lemma attrib_if_hasattr_optional e name :
  name ∈ ["LogOutput"; "Comment"; "Delay"; "Save"; "SkipOID"] →
  attrib_if_hasattr e name = Py.Return Py.PyNone.
Proof.
  intros Hname. repeat (apply elem_of_cons in Hname as [->|Hname]; [reflexivity|]).
  by apply elem_of_nil in Hname.
Qed.

Lemma definition_of_element_fields e d :
  definition_of_element e = Py.Return d →
  logOutput d = Py.PyNone ∧ comment d = Py.PyNone
  ∧ delay d = "NA" ∧ save d = "NA" ∧ skipOid d = "NA".
Proof.
  unfold definition_of_element.
  rewrite !attrib_if_hasattr_optional by set_solver.
  destruct (Py.subscript (attrib e) "OID"); simpl; [|discriminate].
  destruct (Py.subscript (attrib e) "Type"); simpl; [|discriminate].
  destruct (Py.subscript (attrib e) "ReturnValue"); simpl; [|discriminate].
  by intros [= <-].
Qed.

Lemma parse_loop_Forall2 elements : ∀ acc definitions,
  parse_loop elements acc = Py.Return definitions →
  ∃ new, definitions = acc ++ new
         ∧ Forall2 (λ e d, definition_of_element e = Py.Return d) elements new.
Proof.
  induction elements as [|e elements IH]; intros acc definitions; simpl.
  - intros [= <-]. exists []. by rewrite app_nil_r.
  - destruct (definition_of_element e) as [d|] eqn:He; simpl; [|discriminate].
    intros (new & -> & Hnew)%IH. exists (d :: new).
    rewrite <- app_assoc. split; [done|]. by constructor.
Qed.

Lemma ParseQADeviceSimulatorFile_elements rootElement definitions :
  (ParseQADeviceSimulatorFile rootElement).1 = Some definitions →
  Forall2 (λ e d, definition_of_element e = Py.Return d)
    (listDefinitions rootElement) definitions.
Proof.
  unfold ParseQADeviceSimulatorFile, listDefinitions.
  destruct (length (findall_Definitions_Definition rootElement) =? 0)%nat.
  - destruct (length (findall_Definition rootElement) =? 0)%nat eqn:Hflat.
    + apply Nat.eqb_eq, nil_length_inv in Hflat as ->.
      intros [= <-]. constructor.
    + destruct (parse_loop _ []) eqn:Hloop; simpl; [|discriminate].
      intros [= <-]. by apply parse_loop_Forall2 in Hloop as (? & -> & ?).
  - destruct (parse_loop _ []) eqn:Hloop; simpl; [|discriminate].
    intros [= <-]. by apply parse_loop_Forall2 in Hloop as (? & -> & ?).
Qed.

(** C7, the claim as stated fails: without [LogOutput] and [Comment] the
    fields hold [None], not the text [NA]. *)
Lemma absent_LogOutput_and_Comment_give_None :
  let element :=
    mkElement "Definition"
      (list_to_map [("OID", "1.3.6.1.2.1.1.1.0"); ("Type", "OctetString");
                    ("ReturnValue", "router")]) [] in
  let rootElement := mkElement "Simulation" ∅ [mkElement "Definitions" ∅ [element]] in
  attrib element !! "LogOutput" = None
  ∧ attrib element !! "Comment" = None
  ∧ ∃ d, (ParseQADeviceSimulatorFile rootElement).1 = Some [d]
         ∧ logOutput d = Py.PyNone ∧ logOutput d ≠ Py.PyStr "NA"
         ∧ comment d = Py.PyNone ∧ comment d ≠ Py.PyStr "NA".
Proof.
  simpl. repeat split; try by vm_compute.
  eexists. split; [by vm_compute|]. by repeat split.
Qed.

(** C7, as amended: for every Definition element the parser turns into a
    definition, an absent [Delay], [Save] or [SkipOID] gives the text
    [NA] in its field, and an absent [LogOutput] or [Comment] gives
    [None]. *)
Theorem absent_optional_attributes rootElement definitions :
  (ParseQADeviceSimulatorFile rootElement).1 = Some definitions →
  Forall2 (λ element d,
             (attrib element !! "Delay" = None → delay d = "NA")
             ∧ (attrib element !! "Save" = None → save d = "NA")
             ∧ (attrib element !! "SkipOID" = None → skipOid d = "NA")
             ∧ (attrib element !! "LogOutput" = None → logOutput d = Py.PyNone)
             ∧ (attrib element !! "Comment" = None → comment d = Py.PyNone))
    (listDefinitions rootElement) definitions.
Proof.
  intros Hparse%ParseQADeviceSimulatorFile_elements.
  induction Hparse as [|e d elements definitions' Hd _ IH]; constructor; [|done].
  apply definition_of_element_fields in Hd. tauto.
Qed.

Lemma absent_optional_attributes_witness :
  (ParseQADeviceSimulatorFile old_structure_file).1
  = Some [ mkDefinition "1.3.6.1.2.1.1.1.0" "OctetString" "router"
             Py.PyNone Py.PyNone "NA" "NA" "NA";
           mkDefinition "1.3.6.1.2.1.1.3.0" "TimeTicks" "100"
             Py.PyNone Py.PyNone "NA" "NA" "NA" ]
  ∧ Forall2 (λ element d,
               (attrib element !! "Delay" = None → delay d = "NA")
               ∧ (attrib element !! "Save" = None → save d = "NA")
               ∧ (attrib element !! "SkipOID" = None → skipOid d = "NA")
               ∧ (attrib element !! "LogOutput" = None → logOutput d = Py.PyNone)
               ∧ (attrib element !! "Comment" = None → comment d = Py.PyNone))
      (listDefinitions old_structure_file)
      [ mkDefinition "1.3.6.1.2.1.1.1.0" "OctetString" "router"
          Py.PyNone Py.PyNone "NA" "NA" "NA";
        mkDefinition "1.3.6.1.2.1.1.3.0" "TimeTicks" "100"
          Py.PyNone Py.PyNone "NA" "NA" "NA" ].
Proof.
  assert (Hparse : (ParseQADeviceSimulatorFile old_structure_file).1
                   = Some [ mkDefinition "1.3.6.1.2.1.1.1.0" "OctetString" "router"
                              Py.PyNone Py.PyNone "NA" "NA" "NA";
                            mkDefinition "1.3.6.1.2.1.1.3.0" "TimeTicks" "100"
                              Py.PyNone Py.PyNone "NA" "NA" "NA" ])
    by (vm_compute; reflexivity).
  exact (conj Hparse (absent_optional_attributes _ _ Hparse)).
Defined.

End DefinitionParser.

(** ** Strings *)

Section Strings.

Implicit Types (s r : string) (c : ascii).

Lemma append_cons c s r : String c s +:+ r = String c (s +:+ r).
Proof. reflexivity. Qed.

Lemma append_nil_l s : "" +:+ s = s.
Proof. reflexivity. Qed.

Lemma append_assoc s1 s2 s3 : (s1 +:+ s2) +:+ s3 = s1 +:+ (s2 +:+ s3).
Proof.
  induction s1 as [|a s1 IH]; [done|]. by rewrite !append_cons, IH.
Qed.

Lemma append_nil_r s : s +:+ "" = s.
Proof. induction s as [|a s IH]; [done|]. by rewrite append_cons, IH. Qed.

Lemma length_append s1 s2 :
  String.length (s1 +:+ s2) = (String.length s1 + String.length s2)%nat.
Proof.
  induction s1 as [|a s1 IH]; [done|]. rewrite append_cons. simpl. by rewrite IH.
Qed.

Lemma after_literal_Some p s r : Py.after_literal p s = Some r ↔ s = p +:+ r.
Proof.
  revert s. induction p as [|a p IH]; intros s; simpl.
  - rewrite append_nil_l. split; congruence.
  - rewrite append_cons. destruct s as [|b s]; [split; discriminate|].
    destruct (Ascii.eqb_spec a b) as [->|Hab].
    + rewrite IH. split; congruence.
    + split; [discriminate | congruence].
Qed.

Lemma after_literal_append p r : Py.after_literal p (p +:+ r) = Some r.
Proof. by apply after_literal_Some. Qed.

Lemma one_Some (p : ascii → bool) s c r :
  Py.one p s = Some (c, r) ↔ s = String c r ∧ p c = true.
Proof.
  destruct s as [|b s]; simpl; [split; [discriminate | by intros [? _]]|].
  destruct (p b) eqn:Hb; split.
  - by intros [= -> ->].
  - by intros [[= -> ->] _].
  - discriminate.
  - intros [[= -> ->] ?]. congruence.
Qed.

(** What the character classes exclude. *)
Lemma is_letter_not_digit c : Py.is_letter c = true → Py.is_digit c = false.
Proof.
  unfold Py.is_letter, Py.is_digit.
  destruct (N.leb_spec 48 (Py.code c)), (N.leb_spec (Py.code c) 57),
    (N.leb_spec 65 (Py.code c)), (N.leb_spec (Py.code c) 90),
    (N.leb_spec 97 (Py.code c)), (N.leb_spec (Py.code c) 122);
    simpl; try done; lia.
Qed.

End Strings.

Section EntityRepair.

Import QA.

Implicit Types (s r g line : string) (c : ascii).

Lemma semicolon_true s : semicolon s = true ↔ ∃ r, s = String ";" r.
Proof.
  destruct s as [|c s]; simpl.
  - split; [discriminate | by intros [? ?]].
  - rewrite Ascii.eqb_eq. split; [intros ->; eauto | by intros [? [= -> _]]].
Qed.

Lemma semicolon_cons c s : semicolon (String c s) = Ascii.eqb c ";".
Proof. reflexivity. Qed.

Lemma digits_1_2_Some r g :
  digits_1_2 r = Some g ↔
  (∃ a rest, g = String a "" ∧ Py.is_digit a = true
             ∧ r = String a (String ";" rest))
  ∨ (∃ a b rest, g = String a (String b "") ∧ Py.is_digit a = true
                 ∧ Py.is_digit b = true
                 ∧ r = String a (String b (String ";" rest))).
Proof.
  unfold digits_1_2. split.
  - destruct (Py.one Py.is_digit r) as [[a r1]|] eqn:Ha; simpl; [|discriminate].
    apply one_Some in Ha as [-> Ha].
    destruct (Py.one Py.is_digit r1) as [[b r2]|] eqn:Hb.
    + apply one_Some in Hb as [-> Hb].
      destruct (semicolon r2) eqn:H2.
      * apply semicolon_true in H2 as [rest ->]. intros [= <-]. right. eauto 10.
      * rewrite semicolon_cons.
        destruct (Ascii.eqb_spec b ";") as [->|]; [discriminate Hb | discriminate].
    + destruct (semicolon r1) eqn:H1; [|discriminate].
      apply semicolon_true in H1 as [rest ->]. intros [= <-]. left. eauto.
  - intros [(a & rest & -> & Ha & ->)|(a & b & rest & -> & Ha & Hb & ->)];
      simpl; rewrite Ha; simpl.
    + reflexivity.
    + by rewrite Hb.
Qed.

Lemma letter_Some r g :
  letter r = Some g ↔
  ∃ a rest, g = String a "" ∧ Py.is_letter a = true
            ∧ r = String a (String ";" rest).
Proof.
  unfold letter. split.
  - destruct (Py.one Py.is_letter r) as [[a r1]|] eqn:Ha; simpl; [|discriminate].
    apply one_Some in Ha as [-> Ha].
    destruct (semicolon r1) eqn:H1; [|discriminate].
    apply semicolon_true in H1 as [rest ->]. intros [= <-]. eauto.
  - intros (a & rest & -> & Ha & ->). simpl. by rewrite Ha.
Qed.

Lemma one_letter_Some r g :
  one_letter r = Some g ↔
  ∃ b rest, g = String "1" (String b "") ∧ Py.is_letter b = true
            ∧ r = String "1" (String b (String ";" rest)).
Proof.
  unfold one_letter. split.
  - destruct (Py.one (Ascii.eqb "1") r) as [[a r1]|] eqn:Ha; simpl; [|discriminate].
    apply one_Some in Ha as [-> <-%Ascii.eqb_eq].
    destruct (Py.one Py.is_letter r1) as [[b r2]|] eqn:Hb; simpl; [|discriminate].
    apply one_Some in Hb as [-> Hb].
    destruct (semicolon r2) eqn:H2; [|discriminate].
    apply semicolon_true in H2 as [rest ->]. intros [= <-]. eauto.
  - intros (b & rest & -> & Hb & ->). simpl. by rewrite Hb.
Qed.

(** The group alternatives together capture exactly the valid groups. *)
Lemma first_alternative {A} (x : A) (my mz : option A) :
  Some x ∪ my ∪ mz = Some x.
Proof. by destruct my, mz. Qed.

Lemma second_alternative {A} (y : A) (mz : option A) :
  None ∪ Some y ∪ mz = Some y.
Proof. by destruct mz. Qed.

Lemma third_alternative {A} (mz : option A) : None ∪ None ∪ mz = mz.
Proof. by destruct mz. Qed.

Lemma group_Some r g :
  digits_1_2 r ∪ letter r ∪ one_letter r = Some g ↔
  valid_group g = true ∧ ∃ rest, r = g +:+ ";" +:+ rest.
Proof.
  split.
  - destruct (digits_1_2 r) as [g1|] eqn:Hd.
    { rewrite first_alternative. intros [= <-].
      apply digits_1_2_Some in Hd
        as [(a & rest & -> & Ha & ->)|(a & b & rest & -> & Ha & Hb & ->)];
        simpl; rewrite Ha, ?Hb; eauto. }
    destruct (letter r) as [g1|] eqn:Hl.
    { rewrite second_alternative. intros [= <-].
      apply letter_Some in Hl as (a & rest & -> & Ha & ->).
      simpl. rewrite Ha, orb_true_r. eauto. }
    rewrite third_alternative.
    intros (b & rest & -> & Hb & ->)%one_letter_Some.
    simpl. rewrite Hb, orb_true_r. eauto.
  - intros [Hg [rest ->]].
    destruct g as [|a [|b [|? ?]]]; try discriminate.
    + change (Py.is_digit a || Py.is_letter a = true) in Hg.
      change (String a "" +:+ ";" +:+ rest) with (String a (String ";" rest)).
      destruct (Py.is_digit a) eqn:Ha.
      * replace (digits_1_2 _) with (Some (String a ""));
          [apply first_alternative|].
        symmetry. apply digits_1_2_Some. left. eauto.
      * destruct (digits_1_2 _) as [g1|] eqn:Hd.
        { apply digits_1_2_Some in Hd
            as [(? & ? & _ & ? & [= <- _])|(? & ? & ? & _ & ? & _ & [= <- _])];
            congruence. }
        replace (letter _) with (Some (String a ""));
          [apply second_alternative|].
        symmetry. apply letter_Some. eauto.
    + change ((Py.is_digit a && Py.is_digit b)
              || (Ascii.eqb "1" a && Py.is_letter b) = true) in Hg.
      change (String a (String b "") +:+ ";" +:+ rest)
        with (String a (String b (String ";" rest))).
      destruct (Py.is_digit a && Py.is_digit b) eqn:Hab.
      * apply andb_true_iff in Hab as [Ha Hb].
        replace (digits_1_2 _) with (Some (String a (String b "")));
          [apply first_alternative|].
        symmetry. apply digits_1_2_Some. right. eauto 10.
      * rewrite orb_false_l in Hg.
        apply andb_true_iff in Hg as [<-%Ascii.eqb_eq Hb].
        pose proof (is_letter_not_digit _ Hb) as Hb'.
        destruct (digits_1_2 _) as [g1|] eqn:Hd.
        { apply digits_1_2_Some in Hd
            as [(? & ? & _ & _ & [= _ -> _])|(? & ? & ? & _ & _ & ? & [= _ <- _])];
            [discriminate Hb | congruence]. }
        destruct (letter _) as [g1|] eqn:Hl.
        { by apply letter_Some in Hl as (? & ? & _ & ? & [= <- _]). }
        rewrite third_alternative. apply one_letter_Some. eauto.
Qed.

Lemma search_here_sub_here s : search_here s = sub_here s.
Proof.
  unfold search_here, sub_here.
  destruct (Py.after_literal "&#x" s) as [r|]; simpl; [|done].
  by destruct (digits_1_2 r), (letter r), (one_letter r).
Qed.

(** A match of the substitution pattern at the start of [s] is a valid
    group between [&#x] and [;]. *)
Lemma sub_here_Some s g :
  sub_here s = Some g ↔
  valid_group g = true ∧ ∃ rest, s = "&#x" +:+ g +:+ ";" +:+ rest.
Proof.
  unfold sub_here. split.
  - destruct (Py.after_literal "&#x" s) as [r|] eqn:Hr; simpl; [|discriminate].
    apply after_literal_Some in Hr as ->.
    intros [Hg [rest ->]]%group_Some. eauto.
  - intros [Hg [rest ->]]. rewrite after_literal_append. simpl.
    apply group_Some. eauto.
Qed.

(** A text that ends where [String c b] begins cannot stop inside [e]
    when [c] does not occur in [e]. *)
Lemma append_eq_through e c b : ∀ a r,
  Forall (λ x, x ≠ c) (list_ascii_of_string e) →
  a +:+ String c b = e +:+ r →
  ∃ r0, a = e +:+ r0.
Proof.
  induction e as [|x e IH]; intros a r Hne Heq; [by exists a|].
  simpl in Hne. inversion_clear Hne as [|? ? Hx He].
  destruct a as [|y a]; rewrite !append_cons in Heq.
  - rewrite append_nil_l in Heq. by injection Heq as <- _.
  - injection Heq as -> Heq. destruct (IH _ _ He Heq) as [r0 ->]. by exists r0.
Qed.

Lemma valid_group_no_ampersand g :
  valid_group g = true →
  Forall (λ x, x ≠ "&"%char) (list_ascii_of_string ("#x" +:+ g +:+ ";")).
Proof.
  assert (Hdigit : ∀ x, Py.is_digit x = true → x ≠ "&"%char) by (by intros ? ? ->).
  assert (Hletter : ∀ x, Py.is_letter x = true → x ≠ "&"%char) by (by intros ? ? ->).
  destruct g as [|a [|b [|? ?]]]; try discriminate.
  - change (Py.is_digit a || Py.is_letter a = true → Forall (λ x, x ≠ "&"%char)
              ["#"; "x"; a; ";"]%char).
    intros [?|?]%orb_true_iff; repeat constructor; auto.
  - change ((Py.is_digit a && Py.is_digit b)
            || (Ascii.eqb "1" a && Py.is_letter b) = true
            → Forall (λ x, x ≠ "&"%char) ["#"; "x"; a; b; ";"]%char).
    intros [[? ?]%andb_true_iff|[<-%Ascii.eqb_eq ?]%andb_true_iff]%orb_true_iff;
      repeat constructor; auto.
Qed.

Lemma entity_shape g r :
  "&#x" +:+ g +:+ ";" +:+ r = String "&" (("#x" +:+ g +:+ ";") +:+ r).
Proof. by rewrite !append_assoc. Qed.

Lemma entity_length g :
  String.length ("#x" +:+ g +:+ ";") = (3 + String.length g)%nat.
Proof. rewrite !length_append. simpl. lia. Qed.

(** Whether the pattern matches at the start of a text is not changed by
    an ampersand that follows the text. *)
Lemma sub_here_before_ampersand c pre rest :
  sub_here (String c pre +:+ String "&" rest) = sub_here (String c pre).
Proof.
  destruct (sub_here (String c pre)) as [g|] eqn:Hpre.
  - apply sub_here_Some in Hpre as [Hg [r Hr]]. rewrite Hr.
    apply sub_here_Some. split; [done|]. exists (r +:+ String "&" rest).
    by rewrite !append_assoc.
  - destruct (sub_here (String c pre +:+ _)) as [g|] eqn:Hfull; [|done].
    apply sub_here_Some in Hfull as [Hg [r Hr]].
    rewrite entity_shape, append_cons in Hr. injection Hr as -> Hr.
    apply append_eq_through in Hr as [r0 ->];
      [|by apply valid_group_no_ampersand].
    assert (sub_here (String "&" (("#x" +:+ g +:+ ";") +:+ r0)) = Some g)
      as Hcontra; [|congruence].
    apply sub_here_Some. split; [done|]. exists r0.
    by rewrite entity_shape.
Qed.

Lemma sub_from_0_cons c r :
  sub_from 0 (String c r) =
  match sub_here (String c r) with
  | Some group => "0" +:+ group +:+ "." +:+ sub_from (3 + String.length group) r
  | None => String c (sub_from 0 r)
  end.
Proof. reflexivity. Qed.

Lemma sub_from_skip a b : sub_from (String.length a) (a +:+ b) = sub_from 0 b.
Proof. induction a as [|c a IH]; [done|]. by rewrite append_cons. Qed.

Lemma sub_from_before_ampersand rest : ∀ pre skip,
  (skip ≤ String.length pre)%nat →
  sub_from skip (pre +:+ String "&" rest)
  = sub_from skip pre +:+ sub_from 0 (String "&" rest).
Proof.
  induction pre as [|c pre IH]; intros skip Hskip.
  - simpl in Hskip. by replace skip with 0%nat by lia.
  - destruct skip as [|k].
    + rewrite append_cons, !sub_from_0_cons, <- append_cons.
      rewrite sub_here_before_ampersand.
      destruct (sub_here (String c pre)) as [g|] eqn:Hg.
      * apply sub_here_Some in Hg as [_ [r Hr]].
        rewrite entity_shape in Hr. injection Hr as -> ->.
        rewrite IH, !append_assoc; [done|].
        rewrite <- !append_assoc, length_append.
        pose proof (entity_length g) as Hlen.
        rewrite <- append_assoc in Hlen. lia.
      * by rewrite IH, append_cons by (simpl; lia).
    + rewrite append_cons. simpl. apply IH. simpl in Hskip. lia.
Qed.

(** Every match is replaced, wherever it stands in the line. *)
Lemma lineReplaced_entity pre g post :
  valid_group g = true →
  lineReplaced (pre +:+ "&#x" +:+ g +:+ ";" +:+ post)
  = lineReplaced pre +:+ "0" +:+ g +:+ "." +:+ lineReplaced post.
Proof.
  intros Hg. unfold lineReplaced.
  assert (sub_here ("&#x" +:+ g +:+ ";" +:+ post) = Some g) as Hhere
    by (apply sub_here_Some; eauto).
  rewrite entity_shape in Hhere |- *.
  rewrite sub_from_before_ampersand by lia. f_equal.
  rewrite sub_from_0_cons, Hhere. do 3 f_equal.
  by rewrite <- entity_length, sub_from_skip.
Qed.

Lemma malformedEncodingFound_entity pre g post :
  valid_group g = true →
  malformedEncodingFound (pre +:+ "&#x" +:+ g +:+ ";" +:+ post) = true.
Proof.
  intros Hg. induction pre as [|c pre IH].
  - rewrite append_nil_l.
    assert (sub_here ("&#x" +:+ g +:+ ";" +:+ post) = Some g) as Hhere
      by (apply sub_here_Some; eauto).
    rewrite entity_shape in Hhere |- *.
    simpl. by rewrite search_here_sub_here, Hhere.
  - rewrite append_cons. simpl. rewrite IH. by destruct (search_here _).
Qed.

Lemma lineReplaced_without_match line :
  malformedEncodingFound line = false → lineReplaced line = line.
Proof.
  unfold lineReplaced. induction line as [|c line IH]; [done|].
  simpl malformedEncodingFound. rewrite search_here_sub_here, sub_from_0_cons.
  destruct (sub_here (String c line)); [discriminate|].
  intros Hline. by rewrite IH.
Qed.

(** C4, at the failing input: the template [0\1.] keeps the whole captured
    group after the added zero, so a line with [&#x00;] gets [000.] where
    the claim, and the docstring of the function, say [00.]; in the same
    way [&#x1D;] gets [01D.], not [0D.]. With a group of one character
    the numeral has two, as claimed: [&#x5;] gets [05.]. *)
Theorem two_character_groups_give_three_characters :
  updatedLine "&#x00;" = "000." ∧ updatedLine "&#x00;" ≠ "00."
  ∧ updatedLine "<Value>a&#x00;b</Value>" = "<Value>a000.b</Value>"
  ∧ updatedLine "&#x1D;" = "01D." ∧ updatedLine "&#x1D;" ≠ "0D."
  ∧ updatedLine "&#x5;" = "05.".
Proof. repeat split; by vm_compute. Qed.

(** X17: every match of the pattern, that is [&#x], a group of one or two
    digits, a letter, or [1] and a letter, then [;], is replaced by a
    zero, the captured group and a dot, wherever it stands in the line,
    and the text before and after it is repaired on its own; a line
    without a match is returned unchanged. *)
Theorem entity_repair_keeps_the_group :
  (∀ pre g post,
      valid_group g = true →
      updatedLine (pre +:+ "&#x" +:+ g +:+ ";" +:+ post)
      = lineReplaced pre +:+ "0" +:+ g +:+ "." +:+ lineReplaced post)
  ∧ (∀ line,
        malformedEncodingFound line = false →
        updatedLine line = line ∧ lineReplaced line = line).
Proof.
  split.
  - intros pre g post Hg. unfold updatedLine.
    by rewrite malformedEncodingFound_entity, lineReplaced_entity.
  - intros line Hline. unfold updatedLine. rewrite Hline.
    split; [done | by apply lineReplaced_without_match].
Qed.

Lemma entity_repair_witness :
  (valid_group "1D" = true
   ∧ updatedLine ("<Definition OID=" +:+ "&#x" +:+ "1D" +:+ ";" +:+ "1.3.6&#x5;/>")
     = lineReplaced "<Definition OID=" +:+ "0" +:+ "1D" +:+ "."
         +:+ lineReplaced "1.3.6&#x5;/>")
  ∧ (malformedEncodingFound "<Definition OID=&#x123;/>" = false
     ∧ updatedLine "<Definition OID=&#x123;/>" = "<Definition OID=&#x123;/>"
     ∧ lineReplaced "<Definition OID=&#x123;/>" = "<Definition OID=&#x123;/>").
Proof.
  split.
  - split; [reflexivity|].
    apply (proj1 entity_repair_keeps_the_group). reflexivity.
  - split; [reflexivity|].
    apply (proj2 entity_repair_keeps_the_group). reflexivity.
Defined.

End EntityRepair.

(** * Properties of snmpwalk_to_snmpsim.py *)

Section LineNormalizer.

Import Walk.

Implicit Types (st : state) (line : string) (lines : list string).

(** The last branch: what is written is [previousLine] as it stands after
    step 3. *)
Lemma body_last_branch st line :
  reaches_last_branch (previousLine st) line = true →
  ∃ st',
    body st line = Py.Return st'
    ∧ outTextFile st' =
        outTextFile st ++ [ if starts_with_oid (stripped line)
                            then previousLine st
                            else current (previousLine st) line ]
    ∧ previousLine st' = current (previousLine st) line.
Proof.
  unfold reaches_last_branch, current, body.
  intros [[Hprint Hunit%negb_true_iff]%andb_true_iff Hnone%negb_true_iff]%andb_true_iff.
  rewrite Hprint. simpl.
  destruct (starts_with_oid (stripped line)); simpl in *;
    rewrite Hunit, Hnone; eauto.
Qed.

Lemma normal_record_reaches_last_branch previous line :
  normal_record line = true →
  starts_with_oid (stripped line) = true
  ∧ reaches_last_branch previous line = true.
Proof.
  unfold normal_record, reaches_last_branch, current.
  intros [[[-> ->]%andb_true_iff ->]%andb_true_iff ->]%andb_true_iff. done.
Qed.

Lemma body_normal_record st line :
  normal_record line = true →
  ∃ st',
    body st line = Py.Return st'
    ∧ outTextFile st' = outTextFile st ++ [previousLine st]
    ∧ previousLine st' = stripped line.
Proof.
  intros [Hoid Hlast]%(normal_record_reaches_last_branch (previousLine st)).
  destruct (body_last_branch st line Hlast) as (st' & Hbody & Hout & Hprev).
  unfold current in Hprev. rewrite Hoid in Hout, Hprev. eauto.
Qed.

Lemma body_dropped_line st line :
  dropped_line line = true →
  ∃ st',
    body st line = Py.Return st'
    ∧ outTextFile st' = outTextFile st
    ∧ previousLine st' = previousLine st.
Proof.
  unfold dropped_line, body.
  destruct (Py.isprintable (stripped line)); simpl; [|eauto].
  intros [[Hoid Hunit%negb_true_iff]%andb_true_iff Hnone]%andb_true_iff.
  rewrite Hoid. simpl. rewrite Hunit, Hnone. eauto.
Qed.

Lemma loop_app lines1 lines2 st :
  loop (lines1 ++ lines2) st =
  match loop lines1 st with
  | (st', None) => loop lines2 st'
  | raised => raised
  end.
Proof.
  revert st. induction lines1 as [|line lines1 IH]; intros st; simpl; [done|].
  by destruct (body st line).
Qed.

(** Lines are only ever added at the end of the output. *)
Lemma body_appends st line st' :
  body st line = Py.Return st' →
  ∃ more, outTextFile st' = outTextFile st ++ more.
Proof.
  unfold body.
  destruct (negb (Py.isprintable _)).
  { intros [= <-]. exists []. simpl. by rewrite app_nil_r. }
  destruct (has_unit _).
  { destruct (Py.partition _ _) as [[before found] after].
    destruct (scaled_value after); simpl; [|discriminate].
    intros [= <-]. simpl. eauto. }
  destruct (Py.contains _ _); intros [= <-]; simpl; eauto.
  exists []. by rewrite app_nil_r.
Qed.

Lemma loop_appends lines : ∀ st,
  ∃ more, outTextFile (loop lines st).1 = outTextFile st ++ more.
Proof.
  induction lines as [|line lines IH]; intros st; simpl.
  - exists []. by rewrite app_nil_r.
  - destruct (body st line) as [st'|] eqn:Hbody; simpl.
    + apply body_appends in Hbody as [more1 Hmore1].
      destruct (IH st') as [more2 ->]. rewrite Hmore1, <- app_assoc. eauto.
    + exists []. by rewrite app_nil_r.
Qed.

Lemma loop_dropped_lines lines : ∀ st,
  Forall (λ l, dropped_line l = true) lines →
  ∃ st',
    loop lines st = (st', None)
    ∧ outTextFile st' = outTextFile st
    ∧ previousLine st' = previousLine st.
Proof.
  induction lines as [|line lines IH]; intros st Hdropped; simpl; [eauto|].
  inversion_clear Hdropped as [|? ? Hline Hlines].
  destruct (body_dropped_line st line Hline) as (st1 & -> & Hout1 & Hprev1).
  destruct (IH st1 Hlines) as (st' & -> & Hout & Hprev).
  exists st'. by rewrite Hout, Hprev.
Qed.

(** C2, the claim as stated fails: a line without an OID prefix that
    reaches the last branch is written together with the line it
    continues, not the earlier [previousLine] alone. *)
Lemma stitched_line_is_written_at_once :
  let st := (main (Py.text_lines [".1.3.6.1 = STRING: a"])).1 in
  let line := "bc" +:+ Py.newline in
  previousLine st = ".1.3.6.1 = STRING: a"
  ∧ reaches_last_branch (previousLine st) line = true
  ∧ ∃ st', body st line = Py.Return st'
           ∧ outTextFile st' = outTextFile st ++ [".1.3.6.1 = STRING: abc"]
           ∧ outTextFile st' ≠ outTextFile st ++ [previousLine st].
Proof.
  simpl. split; [by vm_compute|]. split; [by vm_compute|].
  eexists. split; [by vm_compute|]. split; by vm_compute.
Qed.

(** C2, as amended: for every line that reaches the last branch, the
    line written is [previousLine] as it stands when the write happens,
    that is the value it held before this line when the line starts with
    an OID prefix, and the stitched line (previous and current, which
    step 3 has already stored in [previousLine]) when it does not;
    afterwards [previousLine] is the current, possibly stitched, line. *)
Theorem last_branch_writes_the_carried_line st line :
  reaches_last_branch (previousLine st) line = true →
  ∃ st',
    body st line = Py.Return st'
    ∧ outTextFile st' =
        outTextFile st ++ [ if starts_with_oid (stripped line)
                            then previousLine st
                            else previousLine st +:+ stripped line ]
    ∧ previousLine st' = current (previousLine st) line.
Proof.
  intros Hlast.
  destruct (body_last_branch st line Hlast) as (st' & Hbody & Hout & Hprev).
  exists st'. unfold current in Hout.
  by destruct (starts_with_oid (stripped line)).
Qed.

Lemma last_branch_witness :
  let st := (main (Py.text_lines [".1.3.6.1 = STRING: a"])).1 in
  let line := ".1.3.6.2 = INTEGER: 7" +:+ Py.newline in
  reaches_last_branch (previousLine st) line = true
  ∧ ∃ st',
      body st line = Py.Return st'
      ∧ outTextFile st' =
          outTextFile st ++ [ if starts_with_oid (stripped line)
                              then previousLine st
                              else previousLine st +:+ stripped line ]
      ∧ previousLine st' = current (previousLine st) line.
Proof.
  intros st line.
  assert (Hlast : reaches_last_branch (previousLine st) line = true)
    by (vm_compute; reflexivity).
  exact (conj Hlast (last_branch_writes_the_carried_line st line Hlast)).
Defined.




(** C10: [previousLine] starts empty, so when the first line that is not
    dropped is a normal record, the first line written is the empty
    line: the output file begins with a newline. *)
Theorem first_written_line_is_empty dropped line rest :
  Forall (λ l, dropped_line l = true) dropped →
  normal_record line = true →
  ∃ more text,
    outTextFile (main (dropped ++ line :: rest)).1 = "" :: more
    ∧ file_text (main (dropped ++ line :: rest)).1 = String "010" text.
Proof.
  unfold main. intros Hdropped Hline.
  destruct (loop_dropped_lines dropped initial Hdropped) as (st1 & Hloop & Hout1 & Hprev1).
  destruct (body_normal_record st1 line Hline) as (st2 & Hbody & Hout2 & _).
  rewrite loop_app, Hloop. simpl. rewrite Hbody.
  destruct (loop_appends rest st2) as [more Hmore].
  rewrite Hout2, Hout1, Hprev1 in Hmore. simpl in Hmore.
  exists more. unfold file_text. rewrite Hmore.
  destruct more; eexists; split; reflexivity.
Qed.

Lemma first_written_line_witness :
  let dropped := [String "007" "bell" +:+ Py.newline;
                  ".1.3.6.1.2.1.1.9 = No Such Object available on this agent at this OID"
                    +:+ Py.newline] in
  let line := ".1.3.6.1.2.1.1.5.0 = STRING: router" +:+ Py.newline in
  let rest := Py.text_lines [".1.3.6.1.2.1.1.6.0 = STRING: lab"] in
  Forall (λ l, dropped_line l = true) dropped
  ∧ normal_record line = true
  ∧ ∃ more text,
      outTextFile (main (dropped ++ line :: rest)).1 = "" :: more
      ∧ file_text (main (dropped ++ line :: rest)).1 = String "010" text.
Proof.
  intros dropped line rest.
  assert (Hdropped : Forall (λ l, dropped_line l = true) dropped)
    by (repeat constructor).
  assert (Hline : normal_record line = true) by (vm_compute; reflexivity).
  exact (conj Hdropped (conj Hline (first_written_line_is_empty dropped line rest Hdropped Hline))).
Defined.

(** C3, at the failing input: a line with the absent-object text and no
    OID prefix is stitched into [previousLine] before it is recognised,
    and the next record writes it out. *)
Theorem no_such_object_is_written_when_stitched :
  let lines :=
    Py.text_lines
      [ ".1.3.6.1.2.1.1.5.0 = STRING: router";
        "iso.3.6.1.2.1.1.9 = No Such Object available on this agent at this OID";
        ".1.3.6.1.2.1.1.6.0 = STRING: lab" ] in
  (main lines).2 = None
  ∧ outTextFile (main lines).1 =
      [ "";
        ".1.3.6.1.2.1.1.5.0 = STRING: routeriso.3.6.1.2.1.1.9 = No Such Object available on this agent at this OID" ]
  ∧ Exists (λ l, Py.contains no_such_object l = true) (outTextFile (main lines).1).
Proof.
  intros lines. split; [vm_compute; reflexivity|].
  split; [vm_compute; reflexivity|].
  replace (outTextFile (main lines).1)
    with [ "";
           ".1.3.6.1.2.1.1.5.0 = STRING: routeriso.3.6.1.2.1.1.9 = No Such Object available on this agent at this OID" ]
    by (vm_compute; reflexivity).
  apply Exists_cons_tl, Exists_cons_hd. vm_compute; reflexivity.
Qed.

(** With the OID prefix the same line leaves no trace. *)
Lemma no_such_object_with_oid_is_dropped st line :
  starts_with_oid (stripped line) = true →
  Py.isprintable (stripped line) = true →
  has_unit (stripped line) = false →
  Py.contains no_such_object (stripped line) = true →
  ∃ st', body st line = Py.Return st'
         ∧ outTextFile st' = outTextFile st
         ∧ previousLine st' = previousLine st.
Proof.
  intros Hoid Hprint Hunit Hnone. apply body_dropped_line.
  unfold dropped_line. by rewrite Hoid, Hprint, Hunit, Hnone.
Qed.

(** Where the remainder holds neither [?] nor [+], the class of the code
    keeps what the words of the specification keep. *)
Lemma kept_as_specified after :
  Forall (λ c, c ≠ "?"%char ∧ c ≠ "+"%char) (list_ascii_of_string after) →
  scaled_value after = Spec.scaled_value after.
Proof.
  intros Hafter. unfold scaled_value, Spec.scaled_value. do 2 f_equal.
  induction after as [|c after IH]; [done|].
  simpl in Hafter. inversion_clear Hafter as [|? ? [Hq Hp] Hrest].
  simpl. rewrite (IH Hrest).
  replace (is_kept c) with (Spec.is_numeric c); [done|].
  unfold is_kept, Spec.is_numeric.
  apply Ascii.eqb_neq in Hq, Hp. rewrite Hq, Hp.
  by destruct (Ascii.eqb c "-"), (Py.is_digit c), (Ascii.eqb c ".").
Qed.

(** C9, at the failing input: a question mark after the unit survives the
    removal, the text left is no number and the run stops there with
    nothing written, where the steps in the words of the specification
    give 123; on the claim's own line the code writes 123 at once. *)
Theorem unit_rewrite_keeps_the_question_mark :
  let line := ".1.3.6.1 = INTEGER: 12.3 TenthdBmV?" in
  Py.partition "INTEGER:" line = (".1.3.6.1 = ", "INTEGER:", " 12.3 TenthdBmV?")
  ∧ Py.remove (λ c, negb (is_kept c)) " 12.3 TenthdBmV?" = "12.3?"
  ∧ main (Py.text_lines [line]) = (initial, Some (Py.ValueError "12.3?"))
  ∧ Spec.scaled_value " 12.3 TenthdBmV?" = Py.Return "123"
  ∧ outTextFile (main (Py.text_lines [".1.3.6.1 = INTEGER: 12.3 TenthdBmV"])).1
    = [".1.3.6.1 = INTEGER: 123"].
Proof. intros line. repeat split; vm_compute; reflexivity. Qed.

End LineNormalizer.

(** * Further properties of qa_device_simulator_to_snmpsim.py *)

Section ParserResults.

Import QA QAMain Examples.

Implicit Types (e : Element) (elements : list Element)
               (acc definitions : list QADeviceSimulatorDefinition).

Lemma has_required_true e :
  has_required e = true ↔
  is_Some (attrib e !! "OID") ∧ is_Some (attrib e !! "Type")
  ∧ is_Some (attrib e !! "ReturnValue").
Proof.
  unfold has_required. rewrite !andb_true_iff, !bool_decide_eq_true. tauto.
Qed.

Lemma definition_of_element_Return e d :
  definition_of_element e = Py.Return d → copied_from e d.
Proof.
  unfold definition_of_element, copied_from, Py.subscript.
  rewrite !attrib_if_hasattr_optional by set_solver.
  destruct (attrib e !! "OID"); simpl; [|discriminate].
  destruct (attrib e !! "Type"); simpl; [|discriminate].
  destruct (attrib e !! "ReturnValue"); simpl; [|discriminate].
  by intros [= <-].
Qed.

Lemma definition_of_element_required e :
  has_required e = true → ∃ d, definition_of_element e = Py.Return d.
Proof.
  intros ([o Ho] & [t Ht] & [v Hv])%has_required_true.
  unfold definition_of_element, Py.subscript.
  rewrite !attrib_if_hasattr_optional by set_solver.
  rewrite Ho, Ht, Hv. simpl. eauto.
Qed.

Lemma definition_of_element_missing e :
  has_required e = false →
  ∃ key, first_missing e key
         ∧ definition_of_element e = Py.Raise (Py.KeyError key).
Proof.
  intros Hmissing.
  unfold definition_of_element, Py.subscript, first_missing.
  rewrite !attrib_if_hasattr_optional by set_solver.
  destruct (attrib e !! "OID") as [o|] eqn:Ho; simpl;
    [|exists "OID"; by eauto].
  destruct (attrib e !! "Type") as [t|] eqn:Ht; simpl;
    [|exists "Type"; by eauto 10].
  destruct (attrib e !! "ReturnValue") as [v|] eqn:Hv; simpl;
    [|exists "ReturnValue"; by eauto 10].
  assert (has_required e = true); [|congruence].
  apply has_required_true. rewrite Ho, Ht, Hv. eauto.
Qed.

Lemma parse_loop_required elements : ∀ acc,
  Forall (λ e, has_required e = true) elements →
  ∃ new, parse_loop elements acc = Py.Return (acc ++ new).
Proof.
  induction elements as [|e elements IH]; intros acc Hall; simpl.
  - exists []. by rewrite app_nil_r.
  - inversion_clear Hall as [|? ? He Hrest].
    destruct (definition_of_element_required e He) as [d ->]. simpl.
    destruct (IH (acc ++ [d]) Hrest) as [new ->].
    exists (d :: new). by rewrite <- app_assoc.
Qed.

Lemma parse_loop_missing elements : ∀ acc,
  Exists (λ e, has_required e = false) elements →
  ∃ complete e rest key,
    elements = complete ++ e :: rest
    ∧ Forall (λ e, has_required e = true) complete
    ∧ first_missing e key
    ∧ parse_loop elements acc = Py.Raise (Py.KeyError key).
Proof.
  induction elements as [|e elements IH]; intros acc Hsome; [by inversion Hsome|].
  simpl. destruct (has_required e) eqn:He.
  - destruct (definition_of_element_required e He) as [d ->]. simpl.
    assert (Exists (λ e, has_required e = false) elements) as Hrest
      by (by inversion Hsome; subst; [congruence|]).
    destruct (IH (acc ++ [d]) Hrest)
      as (complete & e' & rest & key & -> & Hcomplete & Hkey & Hloop).
    exists (e :: complete), e', rest, key.
    split; [done|]. split; [by constructor|]. by split.
  - destruct (definition_of_element_missing e He) as (key & Hkey & ->).
    exists [], e, elements, key.
    split; [done|]. split; [constructor|]. by split.
Qed.

(** What the function returns and prints, from the loop over the matched
    elements. *)
Lemma ParseQADeviceSimulatorFile_loop rootElement :
  ∃ info,
    ParseQADeviceSimulatorFile rootElement =
    match parse_loop (listDefinitions rootElement) [] with
    | Py.Return l => (Some l, info)
    | Py.Raise e =>
        (None, info ++ ["[ERROR]|ParseQADeviceSimulatorFile|Exception:"
                          +:+ Py.str_of_exception e])
    end.
Proof.
  unfold ParseQADeviceSimulatorFile, listDefinitions.
  destruct (length (findall_Definitions_Definition rootElement) =? 0)%nat.
  - destruct (length (findall_Definition rootElement) =? 0)%nat eqn:Hflat.
    + apply Nat.eqb_eq, nil_length_inv in Hflat as ->. simpl. eauto.
    + destruct (parse_loop _ []); eauto.
  - destruct (parse_loop _ []); eauto.
Qed.

(** X1: when a matched element lacks one of [OID], [Type] and
    [ReturnValue], the parse of the whole file fails: no list is
    returned, not even of the elements before it, and the last line
    printed is the error with the name of the missing attribute, namely
    the first one, in the order [OID], [Type], [ReturnValue], that the
    first incomplete element lacks. *)
Theorem missing_required_attribute_fails_the_parse rootElement :
  Exists (λ e, has_required e = false) (listDefinitions rootElement) →
  ∃ complete e rest key info,
    listDefinitions rootElement = complete ++ e :: rest
    ∧ Forall (λ e, has_required e = true) complete
    ∧ first_missing e key
    ∧ ParseQADeviceSimulatorFile rootElement =
        (None, info ++ ["[ERROR]|ParseQADeviceSimulatorFile|Exception:'"
                          +:+ key +:+ "'"]).
Proof.
  intros Hmissing.
  destruct (parse_loop_missing _ [] Hmissing)
    as (complete & e & rest & key & Hsplit & Hcomplete & Hkey & Hloop).
  destruct (ParseQADeviceSimulatorFile_loop rootElement) as [info Hparse].
  rewrite Hloop in Hparse. exists complete, e, rest, key, info.
  split; [done|]. split; [done|]. split; [done|]. by rewrite Hparse.
Qed.

Lemma missing_required_attribute_witness :
  Exists (λ e, has_required e = false)
    (listDefinitions MoreExamples.file_with_missing_type)
  ∧ ∃ complete e rest key info,
      listDefinitions MoreExamples.file_with_missing_type = complete ++ e :: rest
      ∧ Forall (λ e, has_required e = true) complete
      ∧ first_missing e key
      ∧ ParseQADeviceSimulatorFile MoreExamples.file_with_missing_type =
          (None, info ++ ["[ERROR]|ParseQADeviceSimulatorFile|Exception:'"
                            +:+ key +:+ "'"]).
Proof.
  assert (Hmissing : Exists (λ e, has_required e = false)
                       (listDefinitions MoreExamples.file_with_missing_type))
    by (apply Exists_cons_tl, Exists_cons_hd; vm_compute; reflexivity).
  exact (conj Hmissing (missing_required_attribute_fails_the_parse _ Hmissing)).
Defined.

(** X2: when every matched element has the three required attributes, the
    parse returns one definition per matched element, in document order,
    holding that element's [OID], [Type] and [ReturnValue]. *)
Theorem parse_returns_one_definition_per_element rootElement :
  Forall (λ e, has_required e = true) (listDefinitions rootElement) →
  ∃ definitions,
    (ParseQADeviceSimulatorFile rootElement).1 = Some definitions
    ∧ Forall2 copied_from (listDefinitions rootElement) definitions.
Proof.
  intros Hall.
  destruct (parse_loop_required _ [] Hall) as [definitions Hloop].
  destruct (ParseQADeviceSimulatorFile_loop rootElement) as [info Hparse].
  rewrite Hloop in Hparse. exists definitions. rewrite Hparse. split; [done|].
  apply parse_loop_Forall2 in Hloop as (new & [= ->] & Hnew).
  clear -Hnew. induction Hnew; constructor; [|done].
  by apply definition_of_element_Return.
Qed.

Lemma parse_returns_one_definition_witness :
  Forall (λ e, has_required e = true) (listDefinitions old_structure_file)
  ∧ ∃ definitions,
      (ParseQADeviceSimulatorFile old_structure_file).1 = Some definitions
      ∧ Forall2 copied_from (listDefinitions old_structure_file) definitions.
Proof.
  assert (Hall : Forall (λ e, has_required e = true)
                   (listDefinitions old_structure_file))
    by (repeat constructor).
  exact (conj Hall (parse_returns_one_definition_per_element _ Hall)).
Defined.

(** X3: the optional attributes are never read: whatever [LogOutput],
    [Comment], [Delay], [Save] and [SkipOID] the elements carry, every
    definition returned has [None] as log output and comment and [NA] as
    delay, save and skipOid. *)
Theorem optional_attributes_are_never_read rootElement definitions :
  (ParseQADeviceSimulatorFile rootElement).1 = Some definitions →
  Forall (λ d, logOutput d = Py.PyNone ∧ comment d = Py.PyNone
               ∧ delay d = "NA" ∧ save d = "NA" ∧ skipOid d = "NA")
    definitions.
Proof.
  intros Hparse%ParseQADeviceSimulatorFile_elements.
  induction Hparse as [|e d ? ? Hd _ IH]; constructor; [|done].
  by apply (definition_of_element_fields e).
Qed.

Lemma optional_attributes_witness :
  (ParseQADeviceSimulatorFile old_structure_file).1
  = Some [ mkDefinition "1.3.6.1.2.1.1.1.0" "OctetString" "router"
             Py.PyNone Py.PyNone "NA" "NA" "NA";
           mkDefinition "1.3.6.1.2.1.1.3.0" "TimeTicks" "100"
             Py.PyNone Py.PyNone "NA" "NA" "NA" ]
  ∧ Forall (λ d, logOutput d = Py.PyNone ∧ comment d = Py.PyNone
                 ∧ delay d = "NA" ∧ save d = "NA" ∧ skipOid d = "NA")
      [ mkDefinition "1.3.6.1.2.1.1.1.0" "OctetString" "router"
          Py.PyNone Py.PyNone "NA" "NA" "NA";
        mkDefinition "1.3.6.1.2.1.1.3.0" "TimeTicks" "100"
          Py.PyNone Py.PyNone "NA" "NA" "NA" ].
Proof.
  assert (Hparse : (ParseQADeviceSimulatorFile old_structure_file).1
                   = Some [ mkDefinition "1.3.6.1.2.1.1.1.0" "OctetString" "router"
                              Py.PyNone Py.PyNone "NA" "NA" "NA";
                            mkDefinition "1.3.6.1.2.1.1.3.0" "TimeTicks" "100"
                              Py.PyNone Py.PyNone "NA" "NA" "NA" ])
    by (vm_compute; reflexivity).
  exact (conj Hparse (optional_attributes_are_never_read _ _ Hparse)).
Defined.

Lemma children_tagged_Definitions_filter t a children :
  children_tagged "Definitions"
    (mkElement t a
       (List.filter (λ c, negb (String.eqb (tag c) "Definition")) children))
  = children_tagged "Definitions" (mkElement t a children).
Proof.
  unfold children_tagged. simpl.
  induction children as [|c children IH]; [done|]. simpl.
  destruct (String.eqb_spec (tag c) "Definition") as [Hc|Hc]; simpl.
  - rewrite Hc. by simpl.
  - by rewrite IH.
Qed.

(** X4: when the nested path [Definitions/Definition] matches at least one
    element, the [Definition] elements directly under the root are never
    read: the function returns and prints the same with them removed. *)
Theorem nested_definitions_hide_the_flat_ones t a children :
  findall_Definitions_Definition (mkElement t a children) ≠ [] →
  ParseQADeviceSimulatorFile (mkElement t a children)
  = ParseQADeviceSimulatorFile
      (mkElement t a
         (List.filter (λ c, negb (String.eqb (tag c) "Definition")) children)).
Proof.
  intros Hnested.
  assert (findall_Definitions_Definition
            (mkElement t a
               (List.filter (λ c, negb (String.eqb (tag c) "Definition")) children))
          = findall_Definitions_Definition (mkElement t a children)) as Hsame.
  { unfold findall_Definitions_Definition.
    by rewrite children_tagged_Definitions_filter. }
  unfold ParseQADeviceSimulatorFile. rewrite Hsame.
  destruct (findall_Definitions_Definition (mkElement t a children)); done.
Qed.

Lemma nested_definitions_witness :
  findall_Definitions_Definition
    (mkElement "Simulation" ∅ MoreExamples.both_structures) ≠ []
  ∧ ParseQADeviceSimulatorFile (mkElement "Simulation" ∅ MoreExamples.both_structures)
    = ParseQADeviceSimulatorFile
        (mkElement "Simulation" ∅
           (List.filter (λ c, negb (String.eqb (tag c) "Definition"))
              MoreExamples.both_structures)).
Proof.
  assert (Hnested : findall_Definitions_Definition
                      (mkElement "Simulation" ∅ MoreExamples.both_structures) ≠ [])
    by discriminate.
  exact (conj Hnested (nested_definitions_hide_the_flat_ones _ _ _ Hnested)).
Defined.

End ParserResults.

Section MapperResults.

Import QA Examples.

Implicit Types (defs : list QADeviceSimulatorDefinition).

Lemma value_in_table member :
  value member ∈ [2; 4; 5; 6; 64; 65; 66; 67; 68; 70].
Proof. destruct member; simpl; set_solver. Qed.

(** X5: the mapper returns a list exactly when every type name is a name
    of [OidType]; the list then has the length of the input, nothing is
    printed, and every type code in it is one of the ten values of the
    enumeration. *)
Theorem conversion_succeeds_exactly_on_known_types defs :
  (is_Some (ConvertSimulationFile defs).1 ↔
   Forall (λ d, enumContainsName (type d) = true) defs)
  ∧ ∀ recs,
      (ConvertSimulationFile defs).1 = Some recs →
      length recs = length defs
      ∧ (ConvertSimulationFile defs).2 = []
      ∧ Forall (λ r, rec_oidType r ∈ [2; 4; 5; 6; 64; 65; 66; 67; 68; 70]) recs.
Proof.
  unfold ConvertSimulationFile.
  destruct (decide (Forall (λ d, enumContainsName (type d) = true) defs))
    as [Hvalid|Hinvalid].
  - destruct (convert_loop_valid defs [] Hvalid) as (recs & -> & Hrecs). simpl.
    split; [by split; eauto|].
    intros ? [= <-]. split; [by apply Forall2_length in Hrecs|]. split; [done|].
    clear Hvalid. induction Hrecs as [|d r ? ? (_ & Hcode & _) _ IH];
      constructor; [|done].
    unfold type_code in Hcode. destruct (getitem (type d)) as [member|];
      simpl in Hcode; [|discriminate].
    injection Hcode as <-. apply value_in_table.
  - pose proof Hinvalid as Hnot.
    apply not_Forall_Exists in Hinvalid; [|intros d; apply _].
    assert (Exists (λ d, enumContainsName (type d) = false) defs) as Hbad.
    { eapply Exists_impl; [exact Hinvalid|]. intros d Hd.
      simpl in Hd. by destruct (enumContainsName (type d)). }
    destruct (convert_loop_invalid defs [] Hbad) as (? & ? & ? & _ & _ & _ & ->).
    simpl. split; [|discriminate].
    split; [by intros [? ?] | done].
Qed.

Lemma conversion_witness :
  Forall (λ d, enumContainsName (type d) = true) three_definitions
  ∧ is_Some (ConvertSimulationFile three_definitions).1
  ∧ (ConvertSimulationFile three_definitions).1
    = Some [ mkSnmpsimRecord "1.3.6.1.2.1.1.1.0" 4 "router";
             mkSnmpsimRecord "1.3.6.1.2.1.1.2.0" 6 "1.3.6.1.4.1.9";
             mkSnmpsimRecord "1.3.6.1.2.1.4.20.1.1" 64 "10.0.0.1" ]
  ∧ length [ mkSnmpsimRecord "1.3.6.1.2.1.1.1.0" 4 "router";
             mkSnmpsimRecord "1.3.6.1.2.1.1.2.0" 6 "1.3.6.1.4.1.9";
             mkSnmpsimRecord "1.3.6.1.2.1.4.20.1.1" 64 "10.0.0.1" ]
    = length three_definitions.
Proof.
  assert (Hvalid : Forall (λ d, enumContainsName (type d) = true) three_definitions)
    by (repeat constructor).
  assert (Hrecs : (ConvertSimulationFile three_definitions).1
                  = Some [ mkSnmpsimRecord "1.3.6.1.2.1.1.1.0" 4 "router";
                           mkSnmpsimRecord "1.3.6.1.2.1.1.2.0" 6 "1.3.6.1.4.1.9";
                           mkSnmpsimRecord "1.3.6.1.2.1.4.20.1.1" 64 "10.0.0.1" ])
    by (vm_compute; reflexivity).
  exact (conj Hvalid
           (conj (proj2 (proj1 (conversion_succeeds_exactly_on_known_types _)) Hvalid)
              (conj Hrecs
                 (proj1 (proj2 (conversion_succeeds_exactly_on_known_types _) _ Hrecs))))).
Defined.

End MapperResults.

Section RepairedLines.

Import QA.

Implicit Types (s r g u line : string) (c : ascii).

Lemma Forall_chars_append (P : ascii → Prop) s r :
  Forall P (list_ascii_of_string (s +:+ r)) ↔
  Forall P (list_ascii_of_string s) ∧ Forall P (list_ascii_of_string r).
Proof.
  induction s as [|c s IH].
  - rewrite append_nil_l. simpl. split; [by split | tauto].
  - rewrite append_cons. simpl. rewrite !Forall_cons, IH. tauto.
Qed.

(** A character that does not occur in [w] and ends a prefix of [a +:+ w]
    stands inside [a]. *)
Lemma append_eq_before c w : ∀ e a r,
  Forall (λ x, x ≠ c) (list_ascii_of_string w) →
  a +:+ w = e +:+ String c r →
  ∃ r', a = e +:+ String c r'.
Proof.
  induction e as [|x e IH]; intros a r Hw Heq.
  - rewrite append_nil_l in Heq. destruct a as [|y a].
    + rewrite append_nil_l in Heq. subst w. simpl in Hw.
      by inversion_clear Hw.
    + rewrite append_cons in Heq. injection Heq as -> _. by exists a.
  - rewrite append_cons in Heq. destruct a as [|y a].
    + rewrite append_nil_l in Heq. subst w.
      change (String x (e +:+ String c r)) with (String x e +:+ String c r) in Hw.
      apply Forall_chars_append in Hw as [_ Hw]. simpl in Hw.
      by inversion_clear Hw.
    + rewrite append_cons in Heq. injection Heq as -> Heq.
      destruct (IH _ _ Hw Heq) as [r' ->]. by exists r'.
Qed.

Lemma valid_group_chars g :
  valid_group g = true →
  Forall (λ x, Py.is_digit x = true ∨ Py.is_letter x = true)
    (list_ascii_of_string g).
Proof.
  destruct g as [|a [|b [|? ?]]]; try discriminate.
  - change (Py.is_digit a || Py.is_letter a = true → Forall
              (λ x, Py.is_digit x = true ∨ Py.is_letter x = true) [a]).
    intros [?|?]%orb_true_iff; repeat apply Forall_cons;
      try apply Forall_nil; auto.
  - change ((Py.is_digit a && Py.is_digit b)
            || (Ascii.eqb "1" a && Py.is_letter b) = true
            → Forall (λ x, Py.is_digit x = true ∨ Py.is_letter x = true) [a; b]).
    intros [[? ?]%andb_true_iff|[<-%Ascii.eqb_eq ?]%andb_true_iff]%orb_true_iff;
      repeat apply Forall_cons; try apply Forall_nil;
      try (left; reflexivity); auto.
Qed.

Lemma sub_here_not_ampersand c r : c ≠ "&"%char → sub_here (String c r) = None.
Proof.
  intros Hc. unfold sub_here.
  change (Py.after_literal "&#x" (String c r))
    with (if Ascii.eqb "&" c then Py.after_literal "#x" r else None).
  by destruct (Ascii.eqb_spec "&" c) as [<-|_].
Qed.

(** A text that holds no match at its start does not get one when a
    replacement follows it. *)
Lemma sub_here_before_replacement c s g r :
  valid_group g = true →
  sub_here (String c s) = None →
  sub_here (String c s +:+ "0" +:+ g +:+ "." +:+ r) = None.
Proof.
  intros Hg Hnone.
  destruct (sub_here (String c s +:+ _)) as [g'|] eqn:Hfull; [|done].
  apply sub_here_Some in Hfull as [Hg' [r0 Hr0]].
  assert (∃ r', String c s = "&#x" +:+ g' +:+ ";" +:+ r') as [r' Hs].
  { rewrite <- (append_assoc (String c s) "0"),
      <- (append_assoc (String c s +:+ "0") g),
      <- (append_assoc "&#x" g'), <- (append_assoc ("&#x" +:+ g') ";") in Hr0.
    apply append_eq_through in Hr0 as [r1 Hr1].
    - rewrite (append_assoc (String c s) "0" g),
        (append_assoc ("&#x" +:+ g') ";" r1) in Hr1.
      apply append_eq_before in Hr1 as [r' Hr'].
      + exists r'. by rewrite Hr', append_assoc.
      + apply (Forall_chars_append _ "0" g). split; [by repeat constructor|].
        eapply Forall_impl; [by apply valid_group_chars|].
        by intros x [Hx|Hx] ->.
    - apply Forall_chars_append. split; [|by repeat constructor].
      apply (Forall_chars_append _ "&#x" g'). split; [by repeat constructor|].
      eapply Forall_impl; [by apply valid_group_chars|].
      by intros x [Hx|Hx] ->. }
  assert (sub_here (String c s) = Some g') as Hsome; [|congruence].
  apply sub_here_Some. eauto.
Qed.

Lemma malformedEncodingFound_cons c r :
  malformedEncodingFound (String c r) = false ↔
  sub_here (String c r) = None ∧ malformedEncodingFound r = false.
Proof.
  simpl. rewrite search_here_sub_here.
  destruct (sub_here (String c r)); split; try done; by intros [? ?].
Qed.

Lemma malformedEncodingFound_not_ampersand c r :
  c ≠ "&"%char →
  malformedEncodingFound (String c r) = malformedEncodingFound r.
Proof.
  intros Hc. simpl. by rewrite search_here_sub_here, sub_here_not_ampersand.
Qed.

Lemma no_match_in_group g r :
  valid_group g = true →
  malformedEncodingFound (g +:+ r) = malformedEncodingFound r.
Proof.
  intros Hg%valid_group_chars. induction g as [|a g IH]; [done|].
  simpl in Hg. inversion_clear Hg as [|? ? Ha Hrest].
  rewrite append_cons, malformedEncodingFound_not_ampersand; [by apply IH|].
  by destruct Ha; intros ->.
Qed.

(** The text before the first match, the replacement and a text without
    match make a text without match. *)
Lemma no_match_after_replacement g r : ∀ u,
  valid_group g = true →
  malformedEncodingFound u = false →
  malformedEncodingFound r = false →
  malformedEncodingFound (u +:+ "0" +:+ g +:+ "." +:+ r) = false.
Proof.
  intros u Hg Hu Hr. induction u as [|c u IH].
  - rewrite append_nil_l.
    change ("0" +:+ g +:+ "." +:+ r) with (String "0" (g +:+ String "." r)).
    rewrite malformedEncodingFound_not_ampersand by done.
    rewrite no_match_in_group by done.
    by rewrite malformedEncodingFound_not_ampersand.
  - apply malformedEncodingFound_cons in Hu as [Hc Hu].
    rewrite append_cons. apply malformedEncodingFound_cons.
    split; [|by apply IH].
    rewrite <- append_cons. by apply sub_here_before_replacement.
Qed.

(** A line holds no match, or a first one. *)
Lemma first_match line :
  malformedEncodingFound line = false
  ∨ ∃ u g post,
      line = u +:+ "&#x" +:+ g +:+ ";" +:+ post
      ∧ valid_group g = true
      ∧ malformedEncodingFound u = false.
Proof.
  induction line as [|c line IH]; [by left|].
  destruct (sub_here (String c line)) as [g|] eqn:Hhere.
  - apply sub_here_Some in Hhere as [Hg [post Hpost]].
    right. exists "", g, post. by rewrite append_nil_l.
  - destruct IH as [Hline|(u & g & post & -> & Hg & Hu)].
    + left. by apply malformedEncodingFound_cons.
    + right. exists (String c u), g, post. rewrite append_cons.
      split; [done|]. split; [done|].
      apply malformedEncodingFound_cons. split; [|done].
      rewrite entity_shape, <- append_cons in Hhere.
      by rewrite sub_here_before_ampersand in Hhere.
Qed.

Lemma lineReplaced_has_no_match line :
  malformedEncodingFound (lineReplaced line) = false.
Proof.
  remember (String.length line) as n eqn:Hn. revert line Hn.
  induction n as [n IH] using lt_wf_ind. intros line ->.
  destruct (first_match line) as [Hline|(u & g & post & -> & Hg & Hu)].
  - by rewrite lineReplaced_without_match.
  - rewrite lineReplaced_entity, (lineReplaced_without_match u) by done.
    apply no_match_after_replacement; [done..|].
    eapply IH; [|done]. rewrite !length_append. simpl. lia.
Qed.

(** X6: a repaired line holds no match of the malformed-entity pattern any
    more, so repairing it again changes nothing. *)
Theorem repaired_line_has_no_entity_left line :
  malformedEncodingFound (updatedLine line) = false
  ∧ updatedLine (updatedLine line) = updatedLine line.
Proof.
  assert (malformedEncodingFound (updatedLine line) = false) as Hclean.
  { unfold updatedLine.
    destruct (malformedEncodingFound line) eqn:Hline; [|done].
    apply lineReplaced_has_no_match. }
  split; [done|]. unfold updatedLine at 1. by rewrite Hclean.
Qed.

End RepairedLines.

Section WholeRun.

Import QA QAMain Examples.

Variable xml_parse : list string → Py.result Element.
Variable splitext_root : string → string.

Implicit Types (fileLines : list string)
               (definitions : list QADeviceSimulatorDefinition).

Lemma GenerateSnmprecFile_rows recs outputPath :
  recs ≠ [] → outputPath ≠ "" →
  (GenerateSnmprecFile (Some recs) outputPath).1 = Some (map row_of_record recs).
Proof.
  intros Hrecs Hpath. unfold GenerateSnmprecFile.
  destruct (String.eqb_spec outputPath ""); [done|]. by destruct recs.
Qed.

(** X7: when the input file exists, its repaired copy parses into a list
    of definitions that is not empty, every type name is known and the
    output path is not empty, the run writes two files: the repaired copy
    beside the input, then the output with one row per definition, in
    order, holding the oid, the type code and the return value; it ends
    without [SystemExit]. *)
Theorem main_writes_the_copy_and_one_row_per_definition
    inputPath outputPath fileLines definitions :
  convertible xml_parse fileLines definitions →
  outputPath ≠ "" →
  ∃ rows,
    writes (main xml_parse splitext_root inputPath outputPath (Some fileLines))
    = [ (updatedFileName splitext_root inputPath, Text (updatedLines fileLines));
        (outputPath, Rows rows) ]
    ∧ Forall2 (λ d (r : row),
                 r.1.1 = oid d ∧ type_code (type d) = Some r.1.2
                 ∧ r.2 = returnValue d) definitions rows
    ∧ system_exit
        (main xml_parse splitext_root inputPath outputPath (Some fileLines))
      = false.
Proof.
  intros (rootElement & Hxml & Hparse & Hnonempty & Hvalid) Hpath.
  destruct (convert_loop_valid definitions [] Hvalid) as (recs & Hloop & Hrecs).
  assert (recs ≠ []) as Hrecs_nonempty.
  { intros ->. apply Forall2_length in Hrecs. by destruct definitions. }
  exists (map row_of_record recs).
  unfold main, ValidateAndReplaceXmlFile, ParseQADeviceSimulatorFile_lines.
  rewrite Hxml.
  destruct (ParseQADeviceSimulatorFile rootElement) as [parsed printed_parse].
  simpl in Hparse. subst parsed.
  destruct definitions as [|d definitions]; [done|].
  cbn [no_definitions].
  change (default [] (Some (d :: definitions))) with (d :: definitions).
  unfold ConvertSimulationFile. rewrite Hloop.
  destruct recs as [|r recs]; [done|]. cbn [is_falsy app].
  pose proof (GenerateSnmprecFile_rows (r :: recs) outputPath Hrecs_nonempty Hpath)
    as Hrows.
  destruct (GenerateSnmprecFile (Some (r :: recs)) outputPath) as [rows printed_emit].
  simpl in Hrows. subst rows. cbn [writes system_exit app].
  split; [done|]. split; [|done].
  clear -Hrecs. induction Hrecs as [|? ? ? ? Hd _ IH]; simpl; constructor;
    [apply Hd | apply IH].
Qed.


End WholeRun.

Section WholeRunExamples.

Import QA QAMain Examples MoreExamples.

Lemma main_writes_witness :
  convertible parser_of_old_structure ["<Simulation/>"] old_structure_definitions
  ∧ "out.snmprec" ≠ ""
  ∧ ∃ rows,
      writes (main parser_of_old_structure root_of_path "sim.xml" "out.snmprec"
                (Some ["<Simulation/>"]))
      = [ (updatedFileName root_of_path "sim.xml",
           Text (updatedLines ["<Simulation/>"]));
          ("out.snmprec", Rows rows) ]
      ∧ Forall2 (λ d (r : row),
                   r.1.1 = oid d ∧ type_code (type d) = Some r.1.2
                   ∧ r.2 = returnValue d) old_structure_definitions rows
      ∧ system_exit
          (main parser_of_old_structure root_of_path "sim.xml" "out.snmprec"
             (Some ["<Simulation/>"]))
        = false.
Proof.
  assert (Hok : convertible parser_of_old_structure ["<Simulation/>"]
                  old_structure_definitions).
  { exists old_structure_file. split; [reflexivity|].
    split; [vm_compute; reflexivity|]. split; [discriminate|].
    repeat constructor. }
  assert (Hpath : "out.snmprec" ≠ "") by discriminate.
  exact (conj Hok (conj Hpath
           (main_writes_the_copy_and_one_row_per_definition
              parser_of_old_structure root_of_path "sim.xml" "out.snmprec"
              ["<Simulation/>"] old_structure_definitions Hok Hpath))).
Defined.


End WholeRunExamples.

(** * Further properties of snmpwalk_to_snmpsim.py *)

Section PrintableOutput.

Import Walk WalkWords.

Implicit Types (st : state) (line s r : string) (lines : list string).

Lemma isprintable_append s r :
  Py.isprintable (s +:+ r) = Py.isprintable s && Py.isprintable r.
Proof.
  induction s as [|c s IH]; [done|].
  rewrite append_cons. simpl. by rewrite IH, andb_assoc.
Qed.

(** [partition] cuts its text in three pieces, in order. *)
Lemma partition_append sep s :
  s = (Py.partition sep s).1.1 +:+ (Py.partition sep s).1.2
        +:+ (Py.partition sep s).2.
Proof.
  induction s as [|c s IH]; simpl.
  - destruct (Py.after_literal sep "") as [after|] eqn:Hsep; simpl; [|done].
    by apply after_literal_Some in Hsep.
  - destruct (Py.after_literal sep (String c s)) as [after|] eqn:Hsep; simpl.
    + by apply after_literal_Some in Hsep.
    + destruct (Py.partition sep s) as [[before found] after]. simpl in *.
      by rewrite append_cons, <- IH.
Qed.

Lemma partition_found sep s :
  (Py.partition sep s).1.2 = sep ∨ (Py.partition sep s).1.2 = "".
Proof.
  induction s as [|c s IH]; simpl.
  - destruct (Py.after_literal sep ""); simpl; auto.
  - destruct (Py.after_literal sep (String c s)); simpl; [auto|].
    by destruct (Py.partition sep s) as [[before found] after].
Qed.

Lemma isprintable_string_of_uint d :
  Py.isprintable (NilEmpty.string_of_uint d) = true.
Proof. induction d; simpl; auto. Qed.

Lemma isprintable_str_of_int n : Py.isprintable (Py.str_of_int n) = true.
Proof.
  unfold Py.str_of_int, NilZero.string_of_int, NilZero.string_of_uint.
  destruct (Z.to_int n) as [d|d]; destruct d; simpl;
    auto using isprintable_string_of_uint.
Qed.

Lemma scaled_value_printable after value :
  scaled_value after = Py.Return value → Py.isprintable value = true.
Proof.
  unfold scaled_value.
  destruct (Float.of_str _) as [rawValue|]; simpl; [|discriminate].
  destruct (Float.to_int _) as [scaled|]; simpl; [|discriminate].
  intros [= <-]. apply isprintable_str_of_int.
Qed.

Lemma body_keeps_printable st line st' :
  Py.isprintable (previousLine st) = true →
  Forall (λ l, Py.isprintable l = true) (outTextFile st) →
  body st line = Py.Return st' →
  Py.isprintable (previousLine st') = true
  ∧ Forall (λ l, Py.isprintable l = true) (outTextFile st').
Proof.
  intros Hprev Hout. unfold body.
  destruct (Py.isprintable (stripped line)) eqn:Hline; simpl;
    [|by intros [= <-]].
  set (lineUpdated := if negb (starts_with_oid (stripped line))
                      then previousLine st +:+ stripped line
                      else stripped line).
  assert (Py.isprintable lineUpdated = true) as Hupdated.
  { unfold lineUpdated. destruct (negb _); [|done].
    by rewrite isprintable_append, Hprev, Hline. }
  assert (Py.isprintable (if negb (starts_with_oid (stripped line))
                          then lineUpdated else previousLine st) = true)
    as Hcarried by (by destruct (negb _)).
  destruct (has_unit lineUpdated).
  - pose proof (partition_append "INTEGER:" lineUpdated) as Hcut.
    pose proof (partition_found "INTEGER:" lineUpdated) as Hfound.
    destruct (Py.partition "INTEGER:" lineUpdated) as [[before found] after].
    simpl in Hcut, Hfound.
    destruct (scaled_value after) as [value|] eqn:Hvalue; simpl; [|discriminate].
    apply scaled_value_printable in Hvalue.
    rewrite Hcut, !isprintable_append in Hupdated.
    apply andb_true_iff in Hupdated as [Hbefore [Hsep _]%andb_true_iff].
    assert (Py.isprintable (before +:+ found +:+ " " +:+ value) = true).
    { rewrite !isprintable_append, Hbefore, Hsep, Hvalue. done. }
    intros [= <-]. simpl. split; [done|].
    apply Forall_app. by split; [|constructor].
  - destruct (Py.contains no_such_object lineUpdated); intros [= <-]; simpl.
    + done.
    + split; [done|]. apply Forall_app. by split; [|constructor].
Qed.

Lemma loop_keeps_printable lines : ∀ st,
  Py.isprintable (previousLine st) = true →
  Forall (λ l, Py.isprintable l = true) (outTextFile st) →
  Py.isprintable (previousLine (loop lines st).1) = true
  ∧ Forall (λ l, Py.isprintable l = true) (outTextFile (loop lines st).1).
Proof.
  induction lines as [|line lines IH]; intros st Hprev Hout; simpl; [done|].
  destruct (body st line) as [st'|] eqn:Hbody; simpl; [|done].
  destruct (body_keeps_printable st line st' Hprev Hout Hbody). by apply IH.
Qed.

(** X9: whatever the input, every line written to the output, and the
    line still carried at the end, holds printable characters only: no
    control character of the input reaches the output. *)
Theorem output_lines_are_printable lines :
  Forall (λ l, Py.isprintable l = true) (outTextFile (main lines).1)
  ∧ Py.isprintable (previousLine (main lines).1) = true.
Proof.
  destruct (loop_keeps_printable lines initial) as [Hprev Hout];
    [done | constructor |].
  by split.
Qed.

Lemma body_appends_at_most_one st line st' :
  body st line = Py.Return st' →
  ∃ more, outTextFile st' = outTextFile st ++ more ∧ (length more ≤ 1)%nat.
Proof.
  unfold body.
  destruct (negb (Py.isprintable _)).
  { intros [= <-]. exists []. simpl. by rewrite app_nil_r; auto. }
  destruct (has_unit _).
  { destruct (Py.partition _ _) as [[before found] after].
    destruct (scaled_value after); simpl; [|discriminate].
    intros [= <-]. simpl. eauto. }
  destruct (Py.contains _ _); intros [= <-]; simpl; eauto.
  exists []. rewrite app_nil_r. auto.
Qed.

Lemma loop_appends_at_most_one_per_line lines : ∀ st,
  (length (outTextFile (loop lines st).1)
   ≤ length (outTextFile st) + length lines)%nat.
Proof.
  induction lines as [|line lines IH]; intros st; simpl; [lia|].
  destruct (body st line) as [st'|] eqn:Hbody; simpl; [|lia].
  apply body_appends_at_most_one in Hbody as (more & Hmore & Hlen).
  specialize (IH st'). rewrite Hmore, length_app in IH. lia.
Qed.

(** X10: the output never has more lines than the input: each line read
    makes at most one line be written. *)
Theorem output_is_not_longer_than_input lines :
  (length (outTextFile (main lines).1) ≤ length lines)%nat.
Proof. apply (loop_appends_at_most_one_per_line lines initial). Qed.

End PrintableOutput.

Section RunsOfTheLoop.

Import Walk WalkWords.

Implicit Types (st : state) (line s r : string) (lines : list string).

(** One iteration reads [previousLine] and [outTextFile] only, as far as
    those two and the exception are concerned. *)
Lemma body_same_visible st1 st2 line :
  previousLine st1 = previousLine st2 →
  outTextFile st1 = outTextFile st2 →
  match body st1 line, body st2 line with
  | Py.Return a, Py.Return b =>
      previousLine a = previousLine b ∧ outTextFile a = outTextFile b
  | Py.Raise e1, Py.Raise e2 => e1 = e2
  | _, _ => False
  end.
Proof.
  intros Hprev Hout. unfold body. rewrite Hprev, Hout.
  destruct (negb (Py.isprintable _)); [done|].
  destruct (negb (starts_with_oid _));
    (destruct (has_unit _);
     [ destruct (Py.partition _ _) as [[before found] after];
       by destruct (scaled_value after)
     | by destruct (Py.contains _ _) ]).
Qed.

Lemma loop_same_visible lines : ∀ st1 st2,
  previousLine st1 = previousLine st2 →
  outTextFile st1 = outTextFile st2 →
  same_visible (loop lines st1) (loop lines st2).
Proof.
  induction lines as [|line lines IH]; intros st1 st2 Hprev Hout; simpl; [done|].
  pose proof (body_same_visible st1 st2 line Hprev Hout) as Hbody.
  destruct (body st1 line), (body st2 line); try done.
  - destruct Hbody. by apply IH.
  - by subst.
Qed.

Lemma loop_without_dropped lines : ∀ st,
  same_visible (loop lines st) (loop (without_dropped lines) st).
Proof.
  induction lines as [|line lines IH]; intros st; [done|].
  unfold without_dropped. simpl.
  destruct (dropped_line line) eqn:Hline; simpl.
  - destruct (body_dropped_line st line Hline) as (st' & -> & Hout & Hprev).
    destruct (loop_same_visible lines st' st Hprev Hout) as (? & ? & ?).
    destruct (IH st) as (? & ? & ?). unfold same_visible. by repeat split; etrans.
  - destruct (body st line); [apply IH | done].
Qed.

(** X11: the lines that are dropped (those with a character that is not
    printable, and the absent-object lines that start with an OID prefix)
    leave no trace: with them removed from the input, the run writes the
    same lines, carries the same line at the end and stops on the same
    exception, if any. *)
Theorem dropped_lines_leave_no_trace lines :
  outTextFile (main lines).1 = outTextFile (main (without_dropped lines)).1
  ∧ previousLine (main lines).1 = previousLine (main (without_dropped lines)).1
  ∧ (main lines).2 = (main (without_dropped lines)).2.
Proof.
  destruct (loop_without_dropped lines initial) as (? & ? & ?). by repeat split.
Qed.

Lemma nearest_not_NaN negative n d : Float.nearest negative n d ≠ Float.NaN.
Proof.
  unfold Float.nearest. destruct (n =? 0); [done|]. cbv zeta.
  by destruct (_ || _).
Qed.

Lemma of_str_Return s x : Float.of_str s = Py.Return x → x ≠ Float.NaN.
Proof.
  unfold Float.of_str.
  destruct (match s with
            | String "-" r => (true, r)
            | String "+" r => (false, r)
            | _ => (false, s)
            end) as [negative body].
  destruct (Float.split_dot body) as [whole after].
  destruct (_ && _); [|discriminate].
  intros [= <-]. apply nearest_not_NaN.
Qed.

Lemma of_str_Raise s e : Float.of_str s = Py.Raise e → e = Py.ValueError s.
Proof.
  unfold Float.of_str.
  destruct (match s with
            | String "-" r => (true, r)
            | String "+" r => (false, r)
            | _ => (false, s)
            end) as [negative body].
  destruct (Float.split_dot body) as [whole after].
  destruct (_ && _); [discriminate|]. by intros [= <-].
Qed.

Lemma times_ten_not_NaN x :
  x ≠ Float.NaN → Float.mul x (Float.of_int 10) ≠ Float.NaN.
Proof.
  change (Float.of_int 10) with (Float.Finite false 5629499534213120 (-49)).
  destruct x as [negative m e|negative|]; simpl; [|done..].
  intros _. apply nearest_not_NaN.
Qed.

(** The rewriting stops on a text that is no number, or on a number too
    large for a float. *)
Lemma scaled_value_Raise after e :
  scaled_value after = Py.Raise e →
  e = Py.OverflowError
  ∨ e = Py.ValueError (Py.remove (λ c, negb (is_kept c)) after).
Proof.
  unfold scaled_value.
  destruct (Float.of_str _) as [rawValue|e'] eqn:Hraw; simpl.
  - apply of_str_Return, times_ten_not_NaN in Hraw.
    destruct (Float.mul rawValue (Float.of_int 10)); simpl; [discriminate| |done].
    intros [= <-]. by left.
  - apply of_str_Raise in Hraw as ->. intros [= <-]. by right.
Qed.

Lemma body_Raise st line e :
  body st line = Py.Raise e →
  Py.isprintable (stripped line) = true
  ∧ has_unit (current (previousLine st) line) = true
  ∧ (e = Py.OverflowError
     ∨ e = Py.ValueError (kept_remainder (previousLine st) line)).
Proof.
  unfold body, kept_remainder, current.
  destruct (Py.isprintable (stripped line)); simpl; [|discriminate].
  destruct (starts_with_oid (stripped line)); simpl.
  - destruct (has_unit (stripped line)).
    + destruct (Py.partition _ _) as [[before found] after]. simpl.
      destruct (scaled_value after) as [value|e'] eqn:Hvalue; simpl;
        [discriminate|].
      intros [= <-]. by apply scaled_value_Raise in Hvalue.
    + by destruct (Py.contains _ _).
  - destruct (has_unit (previousLine st +:+ stripped line)).
    + destruct (Py.partition _ _) as [[before found] after]. simpl.
      destruct (scaled_value after) as [value|e'] eqn:Hvalue; simpl;
        [discriminate|].
      intros [= <-]. by apply scaled_value_Raise in Hvalue.
    + by destruct (Py.contains _ _).
Qed.

Lemma loop_Raise lines : ∀ st0 st e,
  loop lines st0 = (st, Some e) →
  ∃ before line after,
    lines = before ++ line :: after
    ∧ loop before st0 = (st, None)
    ∧ body st line = Py.Raise e.
Proof.
  induction lines as [|line lines IH]; intros st0 st e; simpl; [discriminate|].
  destruct (body st0 line) as [st1|e'] eqn:Hbody.
  - intros (before & line' & after & -> & Hbefore & Hline)%IH.
    exists (line :: before), line', after. simpl. by rewrite Hbody.
  - intros [= <- <-]. by exists [], line, lines.
Qed.

(** X12: a run stops on an exception only at a line that is printable and
    whose current text holds a unit marker: either the characters kept
    after [INTEGER:] are no number ([ValueError], with those characters)
    or the number is too large ([OverflowError]); the lines written
    before that line are kept. *)
Theorem run_stops_only_at_a_unit_line lines st e :
  main lines = (st, Some e) →
  ∃ before line after,
    lines = before ++ line :: after
    ∧ main before = (st, None)
    ∧ Py.isprintable (stripped line) = true
    ∧ has_unit (current (previousLine st) line) = true
    ∧ (e = Py.OverflowError
       ∨ e = Py.ValueError (kept_remainder (previousLine st) line)).
Proof.
  unfold main.
  intros (before & line & after & -> & Hbefore & Hline)%loop_Raise.
  apply body_Raise in Hline as (? & ? & ?).
  by exists before, line, after.
Qed.

Lemma run_stops_witness :
  let lines :=
    Py.text_lines [ ".1.3.6.1.2.1.1.5.0 = STRING: router";
                    ".1.3.6.1.4.1.1 = INTEGER: 1.2.3 TenthdB";
                    ".1.3.6.1.2.1.1.6.0 = STRING: lab" ] in
  let st := (main lines).1 in
  main lines = (st, Some (Py.ValueError "1.2.3"))
  ∧ ∃ before line after,
      lines = before ++ line :: after
      ∧ main before = (st, None)
      ∧ Py.isprintable (stripped line) = true
      ∧ has_unit (current (previousLine st) line) = true
      ∧ (Py.ValueError "1.2.3" = Py.OverflowError
         ∨ Py.ValueError "1.2.3"
           = Py.ValueError (kept_remainder (previousLine st) line)).
Proof.
  intros lines st.
  assert (Hrun : main lines = (st, Some (Py.ValueError "1.2.3")))
    by (vm_compute; reflexivity).
  exact (conj Hrun (run_stops_only_at_a_unit_line lines st _ Hrun)).
Defined.

Lemma prefix_after_literal sep s :
  String.prefix sep s = false → Py.after_literal sep s = None.
Proof.
  revert s. induction sep as [|a sep IH]; intros [|b s]; simpl;
    try discriminate; [done|].
  destruct (ascii_dec a b) as [->|Hab].
  - rewrite Ascii.eqb_refl. apply IH.
  - intros _. by destruct (Ascii.eqb_spec a b).
Qed.

Lemma partition_not_found sep s :
  Py.contains sep s = false → Py.partition sep s = (s, "", "").
Proof.
  induction s as [|c s IH].
  - change (Py.contains sep "") with (String.prefix sep "" || false).
    rewrite orb_false_r. intros Hhere%prefix_after_literal.
    simpl. by rewrite Hhere.
  - change (Py.contains sep (String c s))
      with (String.prefix sep (String c s) || Py.contains sep s).
    intros [Hhere%prefix_after_literal Hrest]%orb_false_iff.
    change (Py.partition sep (String c s))
      with (match Py.after_literal sep (String c s) with
            | Some after => (EmptyString, sep, after)
            | None => let '(before, found, after) := Py.partition sep s in
                      (String c before, found, after)
            end).
    by rewrite Hhere, (IH Hrest).
Qed.

(** X13: a printable line whose current text holds a unit marker but no
    [INTEGER:] stops the run: nothing is left to parse after the missing
    marker and the conversion of the empty text raises [ValueError]. *)
Theorem unit_line_without_INTEGER_stops_the_run st line :
  Py.isprintable (stripped line) = true →
  has_unit (current (previousLine st) line) = true →
  Py.contains "INTEGER:" (current (previousLine st) line) = false →
  body st line = Py.Raise (Py.ValueError "").
Proof.
  unfold body, current. intros -> Hunit Hmarker. simpl.
  destruct (starts_with_oid (stripped line)); simpl;
    by rewrite Hunit, (partition_not_found _ _ Hmarker).
Qed.

Lemma unit_line_without_INTEGER_witness :
  let line := ".1.3.6.1.4.1.1 = Gauge32: 12 TenthdBmV" +:+ Py.newline in
  Py.isprintable (stripped line) = true
  ∧ has_unit (current (previousLine initial) line) = true
  ∧ Py.contains "INTEGER:" (current (previousLine initial) line) = false
  ∧ body initial line = Py.Raise (Py.ValueError "").
Proof.
  intros line.
  assert (H1 : Py.isprintable (stripped line) = true) by (vm_compute; reflexivity).
  assert (H2 : has_unit (current (previousLine initial) line) = true)
    by (vm_compute; reflexivity).
  assert (H3 : Py.contains "INTEGER:" (current (previousLine initial) line) = false)
    by (vm_compute; reflexivity).
  exact (conj H1 (conj H2 (conj H3
           (unit_line_without_INTEGER_stops_the_run initial line H1 H2 H3)))).
Defined.

End RunsOfTheLoop.

Section StartOfLine.

Import WalkStart.

Lemma in_class_range c :
  in_class c = true ↔ (48 ≤ Py.code c ≤ 102)%N.
Proof.
  unfold in_class.
  destruct (N.leb_spec 65 (Py.code c)), (N.leb_spec (Py.code c) 70),
    (N.leb_spec 57 (Py.code c)), (N.leb_spec (Py.code c) 102),
    (N.leb_spec 48 (Py.code c)), (N.leb_spec (Py.code c) 57);
    simpl; split; intros; try done; lia.
Qed.

(** X14: because the class is written with the range from [9] to [f],
    [matchInvalidStartNewline] finds a match exactly when the line starts
    with two characters whose codes lie between 48 ([0]) and 102 ([f]):
    every pair of hexadecimal digits, and also pairs such as [GZ]. *)
Theorem matchInvalidStartNewline_range sLine :
  matchInvalidStartNewline sLine = true ↔
  ∃ a b rest,
    sLine = String a (String b rest)
    ∧ (48 ≤ Py.code a ≤ 102)%N ∧ (48 ≤ Py.code b ≤ 102)%N.
Proof.
  destruct sLine as [|a [|b rest]]; simpl.
  - split; [discriminate | by intros (? & ? & ? & ? & _)].
  - split; [discriminate | by intros (? & ? & ? & ? & _)].
  - rewrite andb_true_iff, !in_class_range. split.
    + intros [? ?]. by exists a, b, rest.
    + by intros (? & ? & ? & [= <- <- <-] & ? & ?).
Qed.

End StartOfLine.

Section ExactScaling.

Import Walk.

Lemma nearest_exact negative N k :
  0 < N < 2 ^ 53 → 0 ≤ k →
  Float.nearest negative (N * 2 ^ k) (2 ^ k)
  = Float.Finite negative (N * 2 ^ (52 - Z.log2 N)) (Z.log2 N - 52).
Proof.
  intros [Hpos Hlt] Hk.
  pose proof (Z.log2_spec N Hpos) as [Hlow Hhigh].
  pose proof (Z.log2_nonneg N) as Hl0.
  assert (Z.log2 N < 53) as Hl by (by apply Z.log2_lt_pow2).
  assert (0 < 2 ^ k) as Hpk by (by apply Z.pow_pos_nonneg).
  unfold Float.nearest.
  replace (N * 2 ^ k =? 0) with false by (symmetry; apply Z.eqb_neq; nia).
  cbv zeta.
  rewrite Z.log2_mul_pow2, Z.log2_pow2 by lia.
  replace (k + Z.log2 N - k - 53) with (Z.log2 N - 53) by lia.
  set (l := Z.log2 N) in *.
  rewrite (Z.max_r 0 (- (l - 53))), (Z.max_l 0 (l - 53)) by lia.
  rewrite Z.pow_0_r, Z.mul_1_r.
  replace (N * 2 ^ k * 2 ^ (- (l - 53)) / 2 ^ k) with (N * 2 ^ (53 - l)).
  2:{ replace (- (l - 53)) with (53 - l) by lia.
      replace (N * 2 ^ k * 2 ^ (53 - l)) with (N * 2 ^ (53 - l) * 2 ^ k) by ring.
      by rewrite Z.div_mul by lia. }
  replace (2 ^ 53 <=? N * 2 ^ (53 - l)) with true.
  2:{ symmetry. apply Z.leb_le.
      replace (2 ^ 53) with (2 ^ l * 2 ^ (53 - l))
        by (rewrite <- Z.pow_add_r by lia; f_equal; lia).
      apply Z.mul_le_mono_nonneg_r; [apply Z.pow_nonneg|]; lia. }
  replace (l - 53 + 1) with (l - 52) by lia.
  rewrite (Z.max_l (l - 52) (-1074)) by lia.
  rewrite (Z.max_r 0 (- (l - 52))), (Z.max_l 0 (l - 52)) by lia.
  rewrite Z.pow_0_r, Z.mul_1_r.
  replace (- (l - 52)) with (52 - l) by lia.
  replace (N * 2 ^ k * 2 ^ (52 - l)) with (N * 2 ^ (52 - l) * 2 ^ k) by ring.
  rewrite Z.div_mul, Z_mod_mult by lia.
  replace (2 * 0 <? 2 ^ k) with true by (symmetry; apply Z.ltb_lt; lia).
  replace (971 <? l - 52) with false by (symmetry; apply Z.ltb_ge; lia).
  replace (l - 52 =? 971) with false by (symmetry; apply Z.eqb_neq; lia).
  done.
Qed.


Lemma to_int_exact negative N :
  0 < N < 2 ^ 53 →
  Float.to_int (Float.Finite negative (N * 2 ^ (52 - Z.log2 N)) (Z.log2 N - 52))
  = Py.Return (if negative then - N else N).
Proof.
  intros [Hpos Hlt].
  pose proof (Z.log2_nonneg N) as Hl0.
  assert (Z.log2 N < 53) as Hl by (by apply Z.log2_lt_pow2).
  unfold Float.to_int.
  destruct (Z.leb_spec 0 (Z.log2 N - 52)) as [Hge|Hneg].
  - replace (Z.log2 N) with 52 by lia. by rewrite !Z.mul_1_r.
  - replace (- (Z.log2 N - 52)) with (52 - Z.log2 N) by lia.
    rewrite Z.div_mul; [done|]. apply Z.pow_nonzero; lia.
Qed.

(** Ten times a whole number that a float holds exactly. *)
Lemma times_ten_exact negative N :
  0 ≤ N → 10 * N < 2 ^ 53 →
  Float.to_int (Float.mul (Float.nearest negative N 1) (Float.of_int 10))
  = Py.Return (if negative then - (10 * N) else 10 * N).
Proof.
  intros Hnonneg Hlt.
  change (Float.of_int 10) with (Float.Finite false 5629499534213120 (-49)).
  destruct (Z.eq_dec N 0) as [->|Hnonzero].
  { by destruct negative. }
  assert (0 < N < 2 ^ 53) as HN by lia.
  pose proof (Z.log2_nonneg N) as Hl0.
  assert (Z.log2 N < 53) as Hl by (apply Z.log2_lt_pow2; lia).
  replace (Float.nearest negative N 1)
    with (Float.nearest negative (N * 2 ^ 0) (2 ^ 0))
    by (by rewrite Z.pow_0_r, Z.mul_1_r).
  rewrite nearest_exact by lia.
  assert (0 < 10 * N < 2 ^ 53) as HN10 by lia.
  pose proof (nearest_exact negative (10 * N) (101 - Z.log2 N) HN10 ltac:(lia))
    as Hten.
  unfold Float.mul. rewrite xorb_false_r.
  rewrite (Z.max_l 0 (Z.log2 N - 52 + -49)) by lia.
  rewrite (Z.max_r 0 (- (Z.log2 N - 52 + -49))) by lia.
  replace (- (Z.log2 N - 52 + -49)) with (101 - Z.log2 N) by lia.
  replace (N * 2 ^ (52 - Z.log2 N) * 5629499534213120 * 2 ^ 0)
    with (10 * N * 2 ^ (101 - Z.log2 N)).
  2:{ replace (101 - Z.log2 N) with (52 - Z.log2 N + 49) by lia.
      rewrite Z.pow_add_r by lia. change (2 ^ 49) with 562949953421312.
      change (2 ^ 0) with 1. ring. }
  rewrite Hten. by apply to_int_exact.
Qed.

Lemma digit_not_sign c s :
  Py.is_digit c = true →
  match String c s with
  | String "-" r => (true, r)
  | String "+" r => (false, r)
  | _ => (false, String c s)
  end = (false, String c s).
Proof.
  destruct c as [[] [] [] [] [] [] [] []]; try discriminate; reflexivity.
Qed.

Lemma split_dot_digits s : Float.all_digits s = true → Float.split_dot s = (s, None).
Proof.
  induction s as [|c s IH]; [done|]. simpl.
  intros [Hc Hs]%andb_true_iff.
  destruct (Ascii.eqb_spec c ".") as [->|_]; [discriminate Hc|].
  by rewrite (IH Hs).
Qed.

Lemma digits_value_nonneg s : ∀ acc,
  0 ≤ acc → Float.all_digits s = true → 0 ≤ Float.digits_value acc s.
Proof.
  induction s as [|c s IH]; intros acc Hacc; simpl; [done|].
  intros [Hc Hs]%andb_true_iff. apply IH; [|done].
  unfold Float.digit_value, Py.is_digit in *.
  apply andb_true_iff in Hc as [Hlow%N.leb_le _]. lia.
Qed.

Lemma of_str_digits (negative : bool) digits :
  digits ≠ "" → Float.all_digits digits = true →
  Float.of_str ((if negative then "-" else "") +:+ digits)
  = Py.Return (Float.nearest negative (Float.digits_value 0 digits) 1).
Proof.
  intros Hnonempty Hdigits. unfold Float.of_str.
  assert (match (if negative then "-" else "") +:+ digits with
          | String "-" r => (true, r)
          | String "+" r => (false, r)
          | _ => (false, (if negative then "-" else "") +:+ digits)
          end = (negative, digits)) as ->.
  { destruct negative; [done|]. rewrite append_nil_l.
    destruct digits as [|c digits]; [done|].
    apply andb_true_iff in Hdigits as [Hc _]. by apply digit_not_sign. }
  rewrite split_dot_digits by done. simpl.
  rewrite append_nil_r, Hdigits. simpl.
  by destruct digits.
Qed.

(** X15: when the characters kept after [INTEGER:] are a whole number,
    with or without a minus sign, and ten times that number is below
    2^53, the value written is exactly ten times the number: the passage
    through the float loses nothing. *)
Theorem whole_numbers_are_scaled_exactly after (negative : bool) digits :
  Py.remove (λ c, negb (is_kept c)) after
  = (if negative then "-" else "") +:+ digits →
  digits ≠ "" →
  Float.all_digits digits = true →
  10 * Float.digits_value 0 digits < 9007199254740992 →
  scaled_value after
  = Py.Return
      (Py.str_of_int (if negative then - (10 * Float.digits_value 0 digits)
                      else 10 * Float.digits_value 0 digits)).
Proof.
  intros Hkept Hnonempty Hdigits Hbound. unfold scaled_value.
  rewrite Hkept, of_str_digits by done. simpl.
  rewrite times_ten_exact; [done| |done].
  by apply digits_value_nonneg.
Qed.

Lemma whole_numbers_witness :
  Py.remove (λ c, negb (is_kept c)) " -12 TenthdBmV"
  = (if true then "-" else "") +:+ "12"
  ∧ "12" ≠ ""
  ∧ Float.all_digits "12" = true
  ∧ 10 * Float.digits_value 0 "12" < 9007199254740992
  ∧ scaled_value " -12 TenthdBmV"
    = Py.Return
        (Py.str_of_int (if true then - (10 * Float.digits_value 0 "12")
                        else 10 * Float.digits_value 0 "12")).
Proof.
  assert (H1 : Py.remove (λ c, negb (is_kept c)) " -12 TenthdBmV"
               = (if true then "-" else "") +:+ "12") by reflexivity.
  assert (H2 : "12" ≠ "") by discriminate.
  assert (H3 : Float.all_digits "12" = true) by reflexivity.
  assert (H4 : 10 * Float.digits_value 0 "12" < 9007199254740992)
    by (vm_compute; reflexivity).
  exact (conj H1 (conj H2 (conj H3 (conj H4
           (whole_numbers_are_scaled_exactly " -12 TenthdBmV" true "12"
              H1 H2 H3 H4))))).
Defined.

End ExactScaling.

Section UnitLines.

Import Walk.

Implicit Types (st : state) (line next : string).

(** The unit branch writes the line it leaves in [previousLine]. *)
Lemma body_unit_line st line st' :
  Py.isprintable (stripped line) = true →
  has_unit (current (previousLine st) line) = true →
  body st line = Py.Return st' →
  outTextFile st' = outTextFile st ++ [previousLine st'].
Proof.
  unfold body, current. intros -> Hunit. simpl.
  destruct (starts_with_oid (stripped line)); simpl; rewrite Hunit;
    destruct (Py.partition _ _) as [[before found] after];
    (destruct (scaled_value after); simpl; [|discriminate]);
    by intros [= <-].
Qed.

(** X16: a rewritten unit line is written at once and stays carried in
    [previousLine], so a normal record that follows it writes it a second
    time: the output holds the rewritten line twice in a row. *)
Theorem rewritten_unit_line_is_written_twice st line st' next :
  Py.isprintable (stripped line) = true →
  has_unit (current (previousLine st) line) = true →
  body st line = Py.Return st' →
  normal_record next = true →
  ∃ st'',
    body st' next = Py.Return st''
    ∧ outTextFile st'' = outTextFile st ++ [previousLine st'; previousLine st'].
Proof.
  intros Hprint Hunit Hline Hnext.
  apply body_unit_line in Hline; [|done..].
  destruct (body_normal_record st' next Hnext) as (st'' & Hbody & Hout & _).
  exists st''. split; [done|]. by rewrite Hout, Hline, <- app_assoc.
Qed.

Lemma rewritten_unit_line_witness :
  let line := ".1.3.6.1 = INTEGER: 12.3 TenthdBmV" +:+ Py.newline in
  let next := ".1.3.6.2 = INTEGER: 7" +:+ Py.newline in
  let st' := (main [line]).1 in
  Py.isprintable (stripped line) = true
  ∧ has_unit (current (previousLine initial) line) = true
  ∧ body initial line = Py.Return st'
  ∧ normal_record next = true
  ∧ previousLine st' = ".1.3.6.1 = INTEGER: 123"
  ∧ ∃ st'',
      body st' next = Py.Return st''
      ∧ outTextFile st''
        = outTextFile initial ++ [previousLine st'; previousLine st'].
Proof.
  intros line next st'.
  assert (H1 : Py.isprintable (stripped line) = true) by (vm_compute; reflexivity).
  assert (H2 : has_unit (current (previousLine initial) line) = true)
    by (vm_compute; reflexivity).
  assert (H3 : body initial line = Py.Return st') by (vm_compute; reflexivity).
  assert (H4 : normal_record next = true) by (vm_compute; reflexivity).
  assert (H5 : previousLine st' = ".1.3.6.1 = INTEGER: 123")
    by (vm_compute; reflexivity).
  exact (conj H1 (conj H2 (conj H3 (conj H4 (conj H5
           (rewritten_unit_line_is_written_twice initial line st' next
              H1 H2 H3 H4)))))).
Defined.

End UnitLines.
